(** * Goal-planner backend: a shallow embedding of [server.js] and [models/Goal.js]

    The request handlers of [server.js] are rendered as pure functions from
    the state of the server (the Goal collection, the User collection and
    the process-local OTP table) and the request to a response and a new
    state.  A handler behind [authMiddleware] takes the identity that the
    middleware put in [req.user._id].  What the handlers obtain from the
    outside world (the text generator, the clock, the ObjectId generator,
    the mail relay) is passed in as an argument; what the JavaScript runtime
    and the libraries compute and the file does not define ([JSON.parse],
    [Number], [Date], [ObjectId], [bcrypt]) is an interface, [JSRuntime].
    The casts that Mongoose applies for the types named in [GoalSchema] are
    written out.

    The sources hold two listings of [server.js]; they differ in the mail
    transport, in the text of the prompt and in the wording of two 404
    messages.  The handlers below follow the first listing.

    Contents: JavaScript values; fences and white space; the Goal model and
    its casts; state, responses and prompt; the handlers; a reference
    runtime and sample requests; then the properties of Create, of the
    generator and of the Goal Service, and the handlers run on the samples;
    last, further properties of the Goal Service, of the OTP flow and of the
    generator step, again run on the samples.  Registration, login and the
    token check rest on [models/User.js], [jwt] and [bcrypt.compare], which
    the sources do not hold, and are not modelled. *)

From Stdlib Require Import ZArith List String Ascii Bool Lia.
From stdpp Require Import base option list gmap strings pretty.

Import ListNotations.
Set Warnings "-register-all".
Local Open Scope string_scope.
Local Open Scope Z_scope.

(** ** JavaScript values *)

(** A value produced by [JSON.parse] or carried by a request body.  A number
    is an integer that a double holds exactly (at most 2^53 in absolute
    value); its text is the runtime's.  An object is the sequence of its own
    properties, whose names are pairwise distinct. *)
Inductive json : Type :=
| JNull
| JBool (b : bool)
| JNum (n : Z)
| JStr (s : string)
| JArr (items : list json)
| JObj (props : list (string * json)).

(** ObjectIds are 12-byte values; they are read as natural numbers. *)
Definition ObjectId : Type := N.

(** What the handlers use of the runtime and of the libraries they load.
    [None] stands for the exception (or for [NaN]) of the JavaScript side.
    [Number_of_string] is read on the strings that [Number] takes to an
    integer or to [NaN]. *)
Class JSRuntime : Type := {
  JSON_parse : string -> option json;          (* JSON.parse(s); None: SyntaxError *)
  Number_of_string : string -> option Z;       (* Number(s); None: NaN *)
  Number_toString : Z -> string;               (* n.toString(), also `${n}` *)
  Date_of_string : string -> option Z;         (* new Date(s).valueOf(); None: NaN *)
  ObjectId_of_string : string -> option ObjectId; (* new ObjectId(s); None: it throws *)
  bcrypt_hash : string -> string               (* bcrypt.hash(s, 10) *)
}.

(** [o[k]] on the own properties of an object: [None] is [undefined]. *)
Fixpoint obj_get (props : list (string * json)) (k : string) : option json :=
  match props with
  | [] => None
  | (k', v) :: rest => if String.eqb k' k then Some v else obj_get rest k
  end.

(** [v.k] for a property [k] that no prototype defines: it throws a
    TypeError on [null] (outer [None]); it is [undefined] (inner [None]) on a
    number, a string, a boolean, an array, and on an object without [k]. *)
Definition get_prop (v : json) (k : string) : option (option json) :=
  match v with
  | JNull => None
  | JObj props => Some (obj_get props k)
  | _ => Some None
  end.

(** ToBoolean. *)
Definition truthy (v : json) : bool :=
  match v with
  | JNull => false
  | JBool b => b
  | JNum n => negb (n =? 0)
  | JStr s => negb (String.eqb s "")
  | JArr _ => true
  | JObj _ => true
  end.

(** [x || d] where [x] may be [undefined]. *)
Definition js_or (x : option json) (d : json) : json :=
  match x with
  | Some v => if truthy v then v else d
  | None => d
  end.

Section Conversions.
Context `{rt : JSRuntime}.

(** ToString, as a template literal or [toString()] applies it. *)
Fixpoint js_to_string (v : json) : string :=
  match v with
  | JNull => "null"
  | JBool true => "true"
  | JBool false => "false"
  | JNum n => Number_toString n
  | JStr s => s
  | JArr items =>
      String.concat ","
        (List.map (fun x => match x with JNull => "" | _ => js_to_string x end) items)
  | JObj _ => "[object Object]"
  end.

(** ToString of a value that may be [undefined]. *)
Definition js_string_of (x : option json) : string :=
  match x with
  | Some v => js_to_string v
  | None => "undefined"
  end.

End Conversions.

(** ** Text of the generator: fences and white space *)

Definition backtick : ascii := ascii_of_nat 96.
Definition fence : string := String backtick (String backtick (String backtick "")).
Definition fence_json : string := fence +:+ "json".

(** [text.replace(/```json|```/g, '')]: one scan from the left; at each
    position the longer alternative is tried first, a match is dropped and
    the scan resumes after it.  [skip] counts the characters of the current
    match that are still to be dropped. *)
Fixpoint replace_fences_from (skip : nat) (s : string) : string :=
  match s with
  | EmptyString => EmptyString
  | String c rest =>
      match skip with
      | S k => replace_fences_from k rest
      | O =>
          if String.prefix fence_json s then replace_fences_from 6 rest
          else if String.prefix fence s then replace_fences_from 2 rest
          else String c (replace_fences_from 0 rest)
      end
  end.

Definition replace_fences (s : string) : string := replace_fences_from 0 s.

(** White space and line terminators among the 8-bit code units: TAB, LF, VT,
    FF, CR, SP and NBSP. *)
Definition is_js_space (c : ascii) : bool :=
  let n := nat_of_ascii c in
  ((9 <=? n) && (n <=? 13))%nat || (n =? 32)%nat || (n =? 160)%nat.

Fixpoint trim_start (s : string) : string :=
  match s with
  | EmptyString => EmptyString
  | String c rest => if is_js_space c then trim_start rest else s
  end.

(** Drops the trailing white space: a character is kept when it is not white
    space or when something is kept after it. *)
Fixpoint trim_end (s : string) : string :=
  match s with
  | EmptyString => EmptyString
  | String c rest =>
      match trim_end rest with
      | EmptyString => if is_js_space c then EmptyString else String c EmptyString
      | kept => String c kept
      end
  end.

(** [s.trim()]. *)
Definition trim (s : string) : string := trim_end (trim_start s).

(** [text.replace(/```json|```/g, '').trim()]. *)
Definition strip_fences (text : string) : string := trim (replace_fences text).

(** [x === s] for a string [s] and a value [x] that may be [undefined]. *)
Definition strict_eq_string (x : option json) (s : string) : bool :=
  match x with
  | Some (JStr s') => String.eqb s' s
  | _ => false
  end.

(** ** The Goal model ([models/Goal.js]) *)

(** A subdocument of [roadmap].  A path holds [None] when the stored value
    is [null] or the path is not set.  The array [roadmap] holds one slot
    for each element: a subdocument, or [None] for an element that is
    [null]. *)
Record RoadmapEntry : Type := {
  entry_id : option ObjectId;   (* _id, added by Mongoose to every subdocument *)
  day : option Z;               (* day: Number *)
  task : option string;         (* task: String *)
  completed : option bool       (* completed: { type: Boolean, default: false } *)
}.

(** The paths that [GoalSchema] declares.  The [_id] of a document is the
    key under which the collection holds it. *)
Record Goal : Type := {
  userId : option ObjectId;          (* ObjectId, required *)
  title : option string;             (* String, required *)
  description : option string;       (* String *)
  deadline : option Z;               (* Date, as a time value in ms *)
  hoursPerDay : option Z;            (* Number *)
  adjustmentMessage : option string; (* { type: String, default: null } *)
  roadmap : option (list (option RoadmapEntry)); (* None: null *)
  createdAt : option Z               (* { type: Date, default: Date.now } *)
}.

(** The slots of [roadmap]; none when the path holds [null]. *)
Definition entries (g : Goal) : list (option RoadmapEntry) :=
  default [] (roadmap g).

(** *** Casting a value to the type of a schema path

    The result of a cast is [None] for a CastError, [Some None] for [null]
    and [Some (Some x)] for a value. *)
Section Casting.
Context `{rt : JSRuntime}.

Definition castString (v : json) : option (option string) :=
  match v with
  | JNull => Some None
  | JStr s => Some (Some s)
  | JNum _ | JBool _ => Some (Some (js_to_string v))
  | JArr _ => None
  | JObj props =>
      (* a document stands for its _id when that is a string *)
      match obj_get props "_id" with
      | Some (JStr s) => if String.eqb s "" then None else Some (Some s)
      | _ => None
      end
  end.

Definition castNumber (v : json) : option (option Z) :=
  match v with
  | JNull => Some None
  | JStr s => if String.eqb s "" then Some None else Some <$> Number_of_string s
  | JBool b => Some (Some (if b then 1 else 0))
  | JNum n => Some (Some n)
  | JArr _ | JObj _ => None
  end.

Definition castBoolean (v : json) : option (option bool) :=
  match v with
  | JNull => Some None
  | JBool b => Some (Some b)
  | JNum 1 => Some (Some true)
  | JNum 0 => Some (Some false)
  | JStr s =>
      if String.eqb s "true" || String.eqb s "1" || String.eqb s "yes" then Some (Some true)
      else if String.eqb s "false" || String.eqb s "0" || String.eqb s "no" then Some (Some false)
      else None
  | _ => None
  end.

(** The largest time value of a Date, in ms. *)
Definition max_time : Z := 8640000000000000.

Definition valid_time (t : Z) : option Z :=
  if (- max_time <=? t) && (t <=? max_time) then Some t else None.

Definition castDate (v : json) : option (option Z) :=
  match v with
  | JNull => Some None
  | JBool _ => None
  | JNum n => Some <$> valid_time n
  | JStr s =>
      if String.eqb s "" then Some None
      else
        match Number_of_string s with
        | Some n =>
            (* a string of milliseconds *)
            if (275761 <=? n) || (n <? -271820) then Some <$> valid_time n
            else Some <$> Date_of_string s
        | None => Some <$> Date_of_string s
        end
  | JArr _ | JObj _ => Some <$> Date_of_string (js_to_string v)
  end.

Definition castObjectId (v : json) : option (option ObjectId) :=
  match v with
  | JNull => Some None
  | JObj props =>
      match obj_get props "_id" with
      | Some x => if truthy x then Some <$> ObjectId_of_string (js_to_string x)
                  else Some <$> ObjectId_of_string (js_to_string v)
      | None => Some <$> ObjectId_of_string (js_to_string v)
      end
  | _ => Some <$> ObjectId_of_string (js_to_string v)
  end.

(** Casting a path of the constructor argument or of an update: a path that
    is [undefined] is not set. *)
Definition cast_path {A : Type} (cast : json -> option (option A))
    (x : option json) : option (option A) :=
  match x with
  | None => Some None
  | Some v => cast v
  end.

(** The subdocument built from the own properties of an element; [fresh]
    is the ObjectId generated for it, used when the element brings no
    [_id]; [completed] takes its default when the element does not set
    it. *)
Definition cast_subdocument (fresh : ObjectId) (props : list (string * json))
    : option RoadmapEntry :=
  i ← match obj_get props "_id" with
      | None => Some (Some fresh)
      | Some x => castObjectId x
      end;
  d ← cast_path castNumber (obj_get props "day");
  t ← cast_path castString (obj_get props "task");
  c ← match obj_get props "completed" with
      | None => Some (Some false)
      | Some x => castBoolean x
      end;
  Some {| entry_id := i; day := d; task := t; completed := c |}.

(** One element of [roadmap].  The cast leaves [null] in its slot.  An
    object becomes a subdocument, and so does an array: its properties are
    its indices, none of them names a path, and the result is the
    subdocument of the defaults.  A number, a string or a boolean is no
    document and ends in an error: [None]. *)
Definition cast_entry (fresh : ObjectId) (v : json) : option (option RoadmapEntry) :=
  match v with
  | JNull => Some None
  | JObj props => Some <$> cast_subdocument fresh props
  | JArr _ => Some <$> cast_subdocument fresh []
  | JNum _ | JStr _ | JBool _ => None
  end.

(** The elements in order, the [i]-th with the ObjectId [oids i]. *)
Fixpoint cast_entries (oids : nat -> ObjectId) (items : list json)
    : option (list (option RoadmapEntry)) :=
  match items with
  | [] => Some []
  | v :: rest =>
      e ← cast_entry (oids O) v;
      es ← cast_entries (fun i => oids (S i)) rest;
      Some (e :: es)
  end.

(** The document array [roadmap]: [null] is kept; a value that is neither
    [null] nor an array is cast as the array of that one value. *)
Definition cast_roadmap (oids : nat -> ObjectId) (v : json)
    : option (option (list (option RoadmapEntry))) :=
  match v with
  | JNull => Some None
  | JArr items => Some <$> cast_entries oids items
  | _ => Some <$> cast_entries oids [v]
  end.

End Casting.

(** ** State of the server and responses *)

(** Modelled from the spec: [models/User.js] is not among the sources; a
    user record has the fields that [server.js] reads and writes (the
    Credential Store of the specification: identity and hashed secret). *)
Record User : Type := {
  name : string;
  email : string;
  password : string    (* the bcrypt hash *)
}.

(** A value that a handler puts in [otpStore]. *)
Record OtpData : Type := {
  otp : string;
  expires : Z          (* Date.now() + 10 * 60 * 1000 at issue *)
}.

(** [const otpStore = {}]: an object used as a table.  It has the
    properties that the handlers gave it, and it inherits from its
    prototype.  The prototype is [Object.prototype] until a request with the
    address [__proto__] has the handler assign to [otpStore.__proto__]: the
    assigned value then stands between [otpStore] and [Object.prototype]. *)
Record OtpStore : Type := {
  own : gmap string OtpData;        (* the own properties *)
  proto : option OtpData            (* the value assigned to __proto__, if any *)
}.

(** The names of the properties of [Object.prototype], [__proto__] apart. *)
Definition object_prototype_names : list string :=
  [ "constructor"; "__defineGetter__"; "__defineSetter__"; "hasOwnProperty";
    "__lookupGetter__"; "__lookupSetter__"; "isPrototypeOf";
    "propertyIsEnumerable"; "toString"; "valueOf"; "toLocaleString" ].

(** What [otpStore[e]] finds above the own properties, for [e] other than
    [__proto__].  [None] is a falsy result ([undefined], an empty string,
    zero); [Some None] is a truthy value that has neither [otp] nor
    [expires]: a string, a number, a function. *)
Definition inherited (s : OtpStore) (e : string) : option (option OtpData) :=
  match proto s with
  | Some d =>
      if String.eqb e "otp" then
        if String.eqb (otp d) "" then None else Some None
      else if String.eqb e "expires" then
        if expires d =? 0 then None else Some None
      else if bool_decide (e ∈ object_prototype_names) then Some None
      else None
  | None =>
      if bool_decide (e ∈ object_prototype_names) then Some None else None
  end.

(** [otpStore[e]]: [Some (Some d)] is the object [d] with its [otp] and
    [expires].  [otpStore.__proto__] is the prototype, an object in either
    case. *)
Definition otp_get (s : OtpStore) (e : string) : option (option OtpData) :=
  if String.eqb e "__proto__" then Some (proto s)
  else
    match own s !! e with
    | Some d => Some (Some d)
    | None => inherited s e
    end.

(** [otpStore[e] = d]. *)
Definition otp_set (e : string) (d : OtpData) (s : OtpStore) : OtpStore :=
  if String.eqb e "__proto__" then {| own := own s; proto := Some d |}
  else {| own := <[e := d]> (own s); proto := proto s |}.

(** [delete otpStore[e]]: it removes an own property and nothing else. *)
Definition otp_delete (e : string) (s : OtpStore) : OtpStore :=
  {| own := delete e (own s); proto := proto s |}.

Record State : Type := {
  goals : gmap ObjectId Goal;         (* the Goal collection, by _id *)
  users : list User;                  (* the User collection *)
  otpStore : OtpStore
}.

Definition set_goals (st : State) (gs : gmap ObjectId Goal) : State :=
  {| goals := gs; users := users st; otpStore := otpStore st |}.

Definition set_users (st : State) (us : list User) : State :=
  {| goals := goals st; users := us; otpStore := otpStore st |}.

Definition set_otpStore (st : State) (os : OtpStore) : State :=
  {| goals := goals st; users := users st; otpStore := os |}.

(** What a handler sends: [res.json(...)] with status 200, or
    [res.status(status).json({ error })]. *)
Inductive Response : Type :=
| JsonGoal (doc : ObjectId * Goal)
| JsonGoals (docs : list (ObjectId * Goal))
| JsonMessage (message : string)
| JsonError (status : Z) (error : string).

(** ** The prompt of the Create handler *)

(** The four fields that the handler destructures from [req.body]. *)
Record CreateBody : Type := {
  body_title : option json;
  body_description : option json;
  body_deadline : option json;
  body_hoursPerDay : option json
}.

Definition nl : string := String (ascii_of_nat 10) "".
Definition dq : string := String (ascii_of_nat 34) "".

Definition rule_duration (today deadline : string) : string :=
  "1. Calculate the duration between today (" +:+ today +:+ ") and the deadline ("
  +:+ deadline +:+ ").".

Definition rule_extend : string :=
  "2. If the goal is impossible to achieve by the requested deadline, extend the timeline to a realistic duration.".

Definition rule_365 : string :=
  "3. HOWEVER, the total duration MUST NOT exceed 365 days. If it requires more than 365 days, condense the plan to fit exactly 365 days and focus on the core essentials.".

Definition rule_adjustment : string :=
  "4. If you changed the user's requested deadline or duration, provide a friendly explanation in 'adjustmentMessage'. If the deadline was perfect, set 'adjustmentMessage' to null.".

Section Prompt.
Context `{rt : JSRuntime}.

(** The lines of the template literal, with the interpolated values. *)
Definition prompt_lines (today : string) (body : CreateBody) : list string :=
  let title := js_string_of (body_title body) in
  let description := js_string_of (body_description body) in
  let deadline := js_string_of (body_deadline body) in
  let hoursPerDay := js_string_of (body_hoursPerDay body) in
  [ "";
    "      Today's date is: " +:+ today +:+ ".";
    "      I have a goal: " +:+ dq +:+ title +:+ dq +:+ ". Description: " +:+ dq
      +:+ description +:+ dq +:+ ".";
    "      I have " +:+ hoursPerDay
      +:+ " hours per day available. The requested deadline is " +:+ deadline +:+ ".";
    "      ";
    "      Generate a day-by-day roadmap starting from tomorrow.";
    "      ";
    "      CRITICAL RULES:";
    "      " +:+ rule_duration today deadline;
    "      " +:+ rule_extend;
    "      " +:+ rule_365;
    "      " +:+ rule_adjustment;
    "      ";
    "      Strictly return ONLY a JSON object in this format (no markdown, no code fences):";
    "      {";
    "        " +:+ dq +:+ "adjustmentMessage" +:+ dq +:+ ": " +:+ dq
      +:+ "Your friendly explanation here (or null)" +:+ dq +:+ ",";
    "        " +:+ dq +:+ "roadmap" +:+ dq +:+ ": [";
    "          { " +:+ dq +:+ "day" +:+ dq +:+ ": 1, " +:+ dq +:+ "task" +:+ dq +:+ ": "
      +:+ dq +:+ "Specific task for day 1" +:+ dq +:+ " },";
    "          { " +:+ dq +:+ "day" +:+ dq +:+ ": 2, " +:+ dq +:+ "task" +:+ dq +:+ ": "
      +:+ dq +:+ "Specific task for day 2" +:+ dq +:+ " }";
    "        ]";
    "      }";
    "    " ].

Definition build_prompt (today : string) (body : CreateBody) : string :=
  String.concat nl (prompt_lines today body).

End Prompt.

(** ** The handlers *)

(** The fields of [GoalSchema] that the body of [PUT /api/goals/:id] may
    set.  Keys that name no schema path are discarded by Mongoose's strict
    mode before the update is sent; keys that address a nested path or
    [_id] are not covered. *)
Record GoalUpdates : Type := {
  set_userId : option json;
  set_title : option json;
  set_description : option json;
  set_deadline : option json;
  set_hoursPerDay : option json;
  set_adjustmentMessage : option json;
  set_roadmap : option json;
  set_createdAt : option json
}.

(** The update after casting: [None] for a path that the update leaves
    alone, [Some x] for a path that it sets to [x]. *)
Record GoalPatch : Type := {
  patch_userId : option (option ObjectId);
  patch_title : option (option string);
  patch_description : option (option string);
  patch_deadline : option (option Z);
  patch_hoursPerDay : option (option Z);
  patch_adjustmentMessage : option (option string);
  patch_roadmap : option (option (list (option RoadmapEntry)));
  patch_createdAt : option (option Z)
}.

(** [{ $set: patch }] applied to a document. *)
Definition apply_patch (p : GoalPatch) (g : Goal) : Goal :=
  {| userId := default (userId g) (patch_userId p);
     title := default (title g) (patch_title p);
     description := default (description g) (patch_description p);
     deadline := default (deadline g) (patch_deadline p);
     hoursPerDay := default (hoursPerDay g) (patch_hoursPerDay p);
     adjustmentMessage := default (adjustmentMessage g) (patch_adjustmentMessage p);
     roadmap := default (roadmap g) (patch_roadmap p);
     createdAt := default (createdAt g) (patch_createdAt p) |}.

(** Validation at [save()], of a new document and of a stored one alike:
    the required paths.  For a string, [required] refuses [null] and the
    empty string. *)
Definition required_ok (g : Goal) : bool :=
  match userId g, title g with
  | Some _, Some t => negb (String.eqb t "")
  | _, _ => false
  end.

(** [findOne({ _id: gid, userId: uid })]. *)
Definition find_owned (st : State) (gid uid : ObjectId) : option Goal :=
  g ← goals st !! gid;
  if bool_decide (userId g = Some uid) then Some g else None.

(** [roadmap.id(id)]: the position of the first subdocument whose [_id] is
    [id]; empty slots and subdocuments without [_id] are skipped. *)
Fixpoint roadmap_id (slots : list (option RoadmapEntry)) (id : ObjectId) : option nat :=
  match slots with
  | [] => None
  | s :: rest =>
      if bool_decide (s ≫= entry_id = Some id) then Some O
      else S <$> roadmap_id rest id
  end.

(** [task.completed = !task.completed]. *)
Definition toggle_completed (e : RoadmapEntry) : RoadmapEntry :=
  {| entry_id := entry_id e; day := day e; task := task e;
     completed := Some (negb (default false (completed e))) |}.

Definition set_roadmap_of (g : Goal) (r : list (option RoadmapEntry)) : Goal :=
  {| userId := userId g; title := title g; description := description g;
     deadline := deadline g; hoursPerDay := hoursPerDay g;
     adjustmentMessage := adjustmentMessage g; roadmap := Some r;
     createdAt := createdAt g |}.

Section Handlers.
Context `{rt : JSRuntime}.

(** The Roadmap Generator, lines 162-170: the call, the fences, the parse
    and the two defaults.  [gen] is [model.generateContent] followed by
    [response.text()]; [None] when either throws. *)
Definition generate_plan (gen : string -> option string) (prompt : string)
    : option (json * json) :=
  text ← gen prompt;
  parsedResponse ← JSON_parse (strip_fences text);
  r ← get_prop parsedResponse "roadmap";
  a ← get_prop parsedResponse "adjustmentMessage";
  Some (js_or a JNull, js_or r (JArr [])).

(** [new Goal({ userId, title, description, deadline, hoursPerDay,
    adjustmentMessage, roadmap })]; [None] when a path does not cast, which
    [save()] then reports.  [oids 0] is kept for the document itself. *)
Definition new_Goal (oids : nat -> ObjectId) (now : Z) (uid : ObjectId)
    (body : CreateBody) (adjustment roadmap_value : json) : option Goal :=
  t ← cast_path castString (body_title body);
  ds ← cast_path castString (body_description body);
  dl ← cast_path castDate (body_deadline body);
  h ← cast_path castNumber (body_hoursPerDay body);
  a ← castString adjustment;
  r ← cast_roadmap (fun i => oids (S i)) roadmap_value;
  Some {| userId := Some uid; title := t; description := ds; deadline := dl;
          hoursPerDay := h; adjustmentMessage := a; roadmap := r;
          createdAt := Some now |}.

(** 5. Create Goal: [POST /api/goals] for the authenticated user [uid].
    [today] is [new Date().toDateString()], [now] is [Date.now()], [oids]
    are the ObjectIds generated during the request.  Every exception inside
    the [try] block ends in the same 500 response. *)
Definition create (st : State) (uid : ObjectId) (body : CreateBody)
    (today : string) (now : Z) (oids : nat -> ObjectId)
    (gen : string -> option string) : Response * State :=
  let failed := (JsonError 500 "AI generation failed", st) in
  match generate_plan gen (build_prompt today body) with
  | None => failed
  | Some (adjustment, roadmap_value) =>
      match new_Goal oids now uid body adjustment roadmap_value with
      | None => failed
      | Some goal =>
          if required_ok goal then
            match goals st !! oids O with
            | Some _ => failed            (* duplicate key *)
            | None => (JsonGoal (oids O, goal),
                       set_goals st (<[oids O := goal]> (goals st)))
            end
          else failed
      end
  end.

(** 6. Get User Goals: [GET /api/goals]. *)
Definition list_goals (st : State) (uid : ObjectId) : Response * State :=
  (JsonGoals (filter (fun d => userId d.2 = Some uid) (map_to_list (goals st))), st).

(** 7. Update Task Status: [PUT /api/goals/:goalId/task/:taskId].  The
    caller [uid] is known to the handler and not used by it.  Reading
    [goal.roadmap.id] throws when [roadmap] is [null]; [save()] validates
    the document and rejects when a required path is empty.  Both end in
    the [catch] block. *)
Definition toggle_task (st : State) (uid : ObjectId) (goalId taskId : string)
    : Response * State :=
  let failed := (JsonError 500 "Failed to update task", st) in
  match ObjectId_of_string goalId with
  | None => failed
  | Some gid =>
      match goals st !! gid with
      | None => (JsonError 404 "Goal not found", st)
      | Some goal =>
          match roadmap goal with
          | None => failed
          | Some slots =>
              match ObjectId_of_string taskId ≫= roadmap_id slots with
              | None => (JsonError 404 "Task not found", st)
              | Some i =>
                  let goal' := set_roadmap_of goal (alter (fmap toggle_completed) i slots) in
                  if required_ok goal' then
                    (JsonGoal (gid, goal'), set_goals st (<[gid := goal']> (goals st)))
                  else failed
              end
          end
      end
  end.

(** 8. Delete Goal: [DELETE /api/goals/:id]. *)
Definition delete_goal (st : State) (uid : ObjectId) (goalId : string)
    : Response * State :=
  match ObjectId_of_string goalId with
  | None => (JsonError 500 "Server error while deleting goal", st)
  | Some gid =>
      match find_owned st gid uid with
      | None => (JsonError 404 "Goal not found or unauthorized", st)
      | Some _ => (JsonMessage "Goal deleted successfully",
                   set_goals st (delete gid (goals st)))
      end
  end.

(** A path of [$set]: not supplied, or supplied and cast. *)
Definition cast_set {A : Type} (cast : json -> option (option A))
    (x : option json) : option (option (option A)) :=
  match x with
  | None => Some None
  | Some v => Some <$> cast v
  end.

(** The update is cast against the schema before the query is sent. *)
Definition cast_update (oids : nat -> ObjectId) (updates : GoalUpdates)
    : option GoalPatch :=
  u ← cast_set castObjectId (set_userId updates);
  t ← cast_set castString (set_title updates);
  ds ← cast_set castString (set_description updates);
  dl ← cast_set castDate (set_deadline updates);
  h ← cast_set castNumber (set_hoursPerDay updates);
  a ← cast_set castString (set_adjustmentMessage updates);
  r ← match set_roadmap updates with
      | None => Some None
      | Some v => Some <$> cast_roadmap oids v
      end;
  c ← cast_set castDate (set_createdAt updates);
  Some {| patch_userId := u; patch_title := t; patch_description := ds;
          patch_deadline := dl; patch_hoursPerDay := h;
          patch_adjustmentMessage := a; patch_roadmap := r;
          patch_createdAt := c |}.

(** 9. Update Entire Goal: [PUT /api/goals/:id], that is
    [findOneAndUpdate({ _id, userId }, { $set: updates }, { new: true })]. *)
Definition replace_fields (st : State) (uid : ObjectId) (goalId : string)
    (updates : GoalUpdates) (oids : nat -> ObjectId) : Response * State :=
  match ObjectId_of_string goalId, cast_update oids updates with
  | Some gid, Some patch =>
      match find_owned st gid uid with
      | None => (JsonError 404 "Goal not found or unauthorized", st)
      | Some goal =>
          let goal' := apply_patch patch goal in
          (JsonGoal (gid, goal'), set_goals st (<[gid := goal']> (goals st)))
      end
  | _, _ => (JsonError 500 "Failed to update goal", st)
  end.

(** *** The OTP flow *)

(** [User.findOne({ email })]. *)
Definition find_user (us : list User) (e : string) : option User :=
  List.find (fun u => String.eqb (email u) e) us.

(** [User.findOneAndUpdate({ email }, { password })]: the first match. *)
Fixpoint update_password (us : list User) (e : string) (hashed : string) : list User :=
  match us with
  | [] => []
  | u :: rest =>
      if String.eqb (email u) e
      then {| name := name u; email := email u; password := hashed |} :: rest
      else u :: update_password rest e hashed
  end.

(** 3. Forgot Password.  [code] is the six-digit string drawn for the
    request, [now] is [Date.now()], [mail_ok] tells whether [sendMail]
    resolves. *)
Definition forgot_password (st : State) (e : string) (code : string)
    (now : Z) (mail_ok : bool) : Response * State :=
  match find_user (users st) e with
  | None => (JsonError 404 "User not found", st)
  | Some _ =>
      let st' := set_otpStore st
                   (otp_set e {| otp := code; expires := now + 10 * 60 * 1000 |} (otpStore st)) in
      if mail_ok then (JsonMessage "OTP sent to your email", st')
      else (JsonError 500 "Failed to send OTP", st')
  end.

(** [storedOtpData.expires < Date.now()]: false when [expires] is
    [undefined]. *)
Definition otp_expired (stored : option OtpData) (now : Z) : bool :=
  match stored with
  | Some d => expires d <? now
  | None => false
  end.

(** [storedOtpData.otp !== otp].  A stored string differs from everything
    but itself; [undefined] differs from everything but [undefined], which
    is what [req.body.otp] is when the body has no [otp]. *)
Definition otp_differs (stored : option OtpData) (submitted : option json) : bool :=
  match stored with
  | Some d => negb (strict_eq_string submitted (otp d))
  | None => match submitted with Some _ => true | None => false end
  end.

(** 4. Reset Password.  [submitted] is [req.body.otp]. *)
Definition reset_password (st : State) (e : string) (submitted : option json)
    (newPassword : string) (now : Z) : Response * State :=
  match otp_get (otpStore st) e with
  | None => (JsonError 400 "Invalid or expired OTP request", st)
  | Some storedOtpData =>
      if otp_expired storedOtpData now then
        (JsonError 400 "OTP has expired", set_otpStore st (otp_delete e (otpStore st)))
      else if otp_differs storedOtpData submitted then
        (JsonError 400 "Invalid OTP", st)
      else
        (JsonMessage "Password reset successfully",
         set_otpStore (set_users st (update_password (users st) e (bcrypt_hash newPassword)))
                      (otp_delete e (otpStore st)))
  end.

End Handlers.

(** ** A reference runtime

    An instance of [JSRuntime] that computes, used to run the handlers on
    concrete requests.  Each of its functions agrees with Node on the inputs
    it accepts and accepts a fragment only: JSON texts whose numbers are
    integer literals of at most 2^53 in absolute value and whose strings
    have no [\u] escape, decimal integer numerals in the same range,
    calendar dates written [YYYY-MM-DD], ObjectIds written as 24
    hexadecimal digits.  The text of a number is its decimal digits, which
    is the text that Node gives for the integers of that range. *)
Module Reference.

Definition digit_of (c : ascii) : option Z :=
  let n := Z.of_nat (nat_of_ascii c) in
  if (48 <=? n) && (n <=? 57) then Some (n - 48) else None.

Definition hex_of (c : ascii) : option Z :=
  let n := Z.of_nat (nat_of_ascii c) in
  if (48 <=? n) && (n <=? 57) then Some (n - 48)
  else if (97 <=? n) && (n <=? 102) then Some (n - 87)
  else if (65 <=? n) && (n <=? 70) then Some (n - 55)
  else None.

(** The digits of [s] in base [base], most significant first, after [acc]. *)
Fixpoint number_from (digit : ascii -> option Z) (base acc : Z) (s : string) : option Z :=
  match s with
  | EmptyString => Some acc
  | String c rest => d ← digit c; number_from digit base (base * acc + d) rest
  end.

(** The integers that a double holds exactly, one by one. *)
Definition safe_integer (n : Z) : option Z :=
  if Z.abs n <=? 2 ^ 53 then Some n else None.

Definition decimal (s : string) : option Z :=
  match s with
  | EmptyString => None
  | String "-" (String c rest) =>
      n ← number_from digit_of 10 0 (String c rest); safe_integer (- n)
  | _ => n ← number_from digit_of 10 0 s; safe_integer n
  end.

Definition number_to_string (n : Z) : string := pretty n.

Definition object_id (s : string) : option ObjectId :=
  if (String.length s =? 24)%nat then Z.to_N <$> number_from hex_of 16 0 s else None.

(** Days from 1970-01-01 to the civil date [y]-[m]-[d]. *)
Definition days_from_civil (y m d : Z) : Z :=
  let y' := if m <=? 2 then y - 1 else y in
  let era := y' / 400 in
  let yoe := y' - era * 400 in
  let doy := (153 * (if 2 <? m then m - 3 else m + 9) + 2) / 5 + d - 1 in
  let doe := yoe * 365 + yoe / 4 - yoe / 100 + doy in
  era * 146097 + doe - 719468.

Definition days_in_month (y m : Z) : Z :=
  if m =? 2 then
    if ((y mod 4 =? 0) && negb (y mod 100 =? 0)) || (y mod 400 =? 0) then 29 else 28
  else if (m =? 4) || (m =? 6) || (m =? 9) || (m =? 11) then 30 else 31.

(** [YYYY-MM-DD], read as midnight UTC. *)
Definition iso_date (s : string) : option Z :=
  if (String.length s =? 10)%nat
     && String.eqb (String.substring 4 1 s) "-"
     && String.eqb (String.substring 7 1 s) "-" then
    y ← number_from digit_of 10 0 (String.substring 0 4 s);
    m ← number_from digit_of 10 0 (String.substring 5 2 s);
    d ← number_from digit_of 10 0 (String.substring 8 2 s);
    if (1 <=? m) && (m <=? 12) && (1 <=? d) && (d <=? days_in_month y m)
    then Some (days_from_civil y m d * 86400000) else None
  else None.

(** *** JSON texts *)

Definition is_json_space (c : ascii) : bool :=
  let n := nat_of_ascii c in
  ((n =? 32) || (n =? 9) || (n =? 10) || (n =? 13))%nat.

Fixpoint skip_ws (s : string) : string :=
  match s with
  | String c rest => if is_json_space c then skip_ws rest else s
  | EmptyString => EmptyString
  end.

(** The characters after an opening quote, up to the closing one. *)
Fixpoint string_body (s : string) : option (string * string) :=
  match s with
  | EmptyString => None
  | String c rest =>
      let n := nat_of_ascii c in
      if (n =? 34)%nat then Some (EmptyString, rest)
      else if (n <? 32)%nat then None
      else if (n =? 92)%nat then
        match rest with
        | String e rest' =>
            let m := nat_of_ascii e in
            c' ← (if (m =? 34)%nat || (m =? 92)%nat || (m =? 47)%nat then Some e
                  else if (m =? 98)%nat then Some (ascii_of_nat 8)
                  else if (m =? 102)%nat then Some (ascii_of_nat 12)
                  else if (m =? 110)%nat then Some (ascii_of_nat 10)
                  else if (m =? 114)%nat then Some (ascii_of_nat 13)
                  else if (m =? 116)%nat then Some (ascii_of_nat 9)
                  else None);
            '(body, after) ← string_body rest';
            Some (String c' body, after)
        | EmptyString => None
        end
      else
        '(body, after) ← string_body rest;
        Some (String c body, after)
  end.

(** The digits at the head of [s] and what follows them. *)
Fixpoint span_digits (s : string) : string * string :=
  match s with
  | String c rest =>
      match digit_of c with
      | Some _ => let '(ds, after) := span_digits rest in (String c ds, after)
      | None => (EmptyString, s)
      end
  | EmptyString => (EmptyString, EmptyString)
  end.

(** An integer literal: no leading zero, no fraction, no exponent. *)
Definition integer_literal (s : string) : option (Z * string) :=
  let '(neg, s') := match s with
                    | String "-" rest => (true, rest)
                    | _ => (false, s)
                    end in
  let '(ds, after) := span_digits s' in
  let leading_zero := match ds with
                      | String "0" (String _ _) => true
                      | _ => false
                      end in
  let continues := match after with
                   | String c _ =>
                       let n := nat_of_ascii c in
                       ((n =? 46) || (n =? 101) || (n =? 69))%nat
                   | EmptyString => false
                   end in
  if leading_zero || continues then None
  else n ← decimal ds; Some (if neg then - n else n, after).

(** [o[k] = v] while an object is read: a repeated name keeps its place and
    takes the later value. *)
Fixpoint obj_set (props : list (string * json)) (k : string) (v : json)
    : list (string * json) :=
  match props with
  | [] => [(k, v)]
  | (k', v') :: rest =>
      if String.eqb k' k then (k, v) :: rest else (k', v') :: obj_set rest k v
  end.

Definition expect (c : string) (s : string) : option string :=
  if String.prefix c s then Some (String.substring (String.length c)
                                    (String.length s - String.length c) s)
  else None.

(** Recursive descent, bounded by [fuel]. *)
Fixpoint value (fuel : nat) (s : string) : option (json * string) :=
  match fuel with
  | O => None
  | S f =>
      let s := skip_ws s in
      match s with
      | EmptyString => None
      | String c rest =>
          let n := nat_of_ascii c in
          if (n =? 91)%nat then                       (* [ *)
            match skip_ws rest with
            | String "]" after => Some (JArr [], after)
            | _ => '(items, after) ← elements f rest; Some (JArr items, after)
            end
          else if (n =? 123)%nat then                 (* { *)
            match skip_ws rest with
            | String "}" after => Some (JObj [], after)
            | _ => '(props, after) ← members f [] rest; Some (JObj props, after)
            end
          else if (n =? 34)%nat then
            '(body, after) ← string_body rest; Some (JStr body, after)
          else if String.prefix "null" s then (fun a => (JNull, a)) <$> expect "null" s
          else if String.prefix "true" s then (fun a => (JBool true, a)) <$> expect "true" s
          else if String.prefix "false" s then (fun a => (JBool false, a)) <$> expect "false" s
          else '(z, after) ← integer_literal s; Some (JNum z, after)
      end
  end
with elements (fuel : nat) (s : string) : option (list json * string) :=
  match fuel with
  | O => None
  | S f =>
      '(v, after) ← value f s;
      match skip_ws after with
      | String "," more => '(vs, rest) ← elements f more; Some (v :: vs, rest)
      | String "]" rest => Some ([v], rest)
      | _ => None
      end
  end
with members (fuel : nat) (acc : list (string * json)) (s : string)
    : option (list (string * json) * string) :=
  match fuel with
  | O => None
  | S f =>
      match skip_ws s with
      | String q after_quote =>
          if (nat_of_ascii q =? 34)%nat then
            '(k, after_key) ← string_body after_quote;
            match skip_ws after_key with
            | String ":" after_colon =>
                '(v, after) ← value f after_colon;
                let acc' := obj_set acc k v in
                match skip_ws after with
                | String "," more => members f acc' more
                | String "}" rest => Some (acc', rest)
                | _ => None
                end
            | _ => None
            end
          else None
      | EmptyString => None
      end
  end.

Definition json_parse (s : string) : option json :=
  '(v, after) ← value (2 * String.length s + 2) s;
  match skip_ws after with
  | EmptyString => Some v
  | _ => None
  end.

(** A stand-in for the salted hash. *)
Definition hash (s : string) : string := "$2a$10$" +:+ s.

Definition runtime : JSRuntime :=
  {| JSON_parse := json_parse;
     Number_of_string := decimal;
     Number_toString := number_to_string;
     Date_of_string := iso_date;
     ObjectId_of_string := object_id;
     bcrypt_hash := hash |}.

End Reference.

(** ** Predicates of the specification *)

(** A text without a backtick holds no fence. *)
Fixpoint no_backtick (s : string) : bool :=
  match s with
  | EmptyString => true
  | String c rest => negb (Ascii.eqb c backtick) && no_backtick rest
  end.

(** [s] occurs in [t]. *)
Definition occurs_in (s t : string) : Prop :=
  exists before after, t = before +:+ s +:+ after.

(** An entry of the shape [{day: integer, task: string}]. *)
Definition expected_entry (v : json) : bool :=
  match v with
  | JObj props =>
      match obj_get props "day", obj_get props "task" with
      | Some (JNum _), Some (JStr _) =>
          forallb (fun kv => String.eqb kv.1 "day" || String.eqb kv.1 "task") props
      | _, _ => false
      end
  | _ => false
  end.

(** The roadmap sequence of a parsed response. *)
Definition returned_roadmap (parsed : json) : list json :=
  match parsed with
  | JObj props =>
      match obj_get props "roadmap" with
      | Some (JArr items) => items
      | _ => []
      end
  | _ => []
  end.

(** A well-formed response: an object whose [roadmap] is a sequence of
    entries of the expected shape and whose [adjustmentMessage] is a string
    or null (or left out). *)
Definition well_formed (parsed : json) : bool :=
  match parsed with
  | JObj props =>
      match obj_get props "roadmap" with
      | Some (JArr items) => forallb expected_entry items
      | _ => false
      end
      && match obj_get props "adjustmentMessage" with
         | None | Some JNull | Some (JStr _) => true
         | _ => false
         end
  | _ => false
  end.

Definition casts {A : Type} (x : option A) : bool :=
  match x with
  | Some _ => true
  | None => false
  end.

(** Valid Create inputs: the four fields cast to their schema types and the
    required title is a non-empty string. *)
Definition valid_body `{rt : JSRuntime} (body : CreateBody) : bool :=
  match cast_path castString (body_title body) with
  | Some (Some t) => negb (String.eqb t "")
  | _ => false
  end
  && casts (cast_path castString (body_description body))
  && casts (cast_path castDate (body_deadline body))
  && casts (cast_path castNumber (body_hoursPerDay body)).

(** The response carries the document stored under [k]. *)
Definition returns_goal (resp : Response) (k : ObjectId) : Prop :=
  match resp with
  | JsonGoal doc => doc.1 = k
  | JsonGoals docs => exists doc, doc ∈ docs /\ doc.1 = k
  | _ => False
  end.

(** The response that the specification calls GenerationFailure. *)
Definition GenerationFailure : Response := JsonError 500 "AI generation failed".

(** The roadmap of the Goal that a response carries. *)
Definition response_roadmap (r : Response) : list (option RoadmapEntry) :=
  match r with
  | JsonGoal doc => entries doc.2
  | _ => []
  end.

(** A number, a string or a boolean that is truthy. *)
Definition truthy_scalar (v : json) : bool :=
  match v with
  | JNum _ | JStr _ | JBool _ => truthy v
  | _ => false
  end.

(** An element of a roadmap that Mongoose refuses: a truthy number, string
    or boolean, or an object with a property that does not cast to the type
    of its path. *)
Definition refused_entry `{rt : JSRuntime} (v : json) : bool :=
  match v with
  | JObj props => negb (casts (cast_subdocument 0%N props))
  | _ => truthy_scalar v
  end.

(** A value of [roadmap] that Mongoose refuses: one with a refused
    element. *)
Definition refused_roadmap `{rt : JSRuntime} (v : json) : bool :=
  match v with
  | JArr items => existsb refused_entry items
  | _ => refused_entry v
  end.

(** A fence occurs in the text. *)
Fixpoint has_fence (s : string) : bool :=
  match s with
  | EmptyString => false
  | String _ rest => String.prefix fence s || has_fence rest
  end.

(** A text made of pieces without a backtick, joined by the fences
    [```json] and [```]; the second text is the pieces joined without the
    fences.  The fence [```] is the one that the tag [json] does not
    follow. *)
Inductive Fenced : string -> string -> Prop :=
| Fenced_plain s :
    no_backtick s = true -> Fenced s s
| Fenced_json s t t' :
    no_backtick s = true -> Fenced t t' ->
    Fenced (s +:+ fence_json +:+ t) (s +:+ t')
| Fenced_bare s t t' :
    no_backtick s = true -> String.prefix "json" t = false -> Fenced t t' ->
    Fenced (s +:+ fence +:+ t) (s +:+ t').


(** ** Further predicates and requests *)

(** Every e-mail address with a pending OTP belongs to a user. *)
Definition otp_for_users (st : State) : Prop :=
  forall e d, otp_get (otpStore st) e = Some (Some d) -> is_Some (find_user (users st) e).

(** The body [{}] of [PUT /api/goals/:id]. *)
Definition no_updates : GoalUpdates :=
  {| set_userId := None; set_title := None; set_description := None;
     set_deadline := None; set_hoursPerDay := None; set_adjustmentMessage := None;
     set_roadmap := None; set_createdAt := None |}.

(** The body [{ roadmap: v }], the one the handler expects. *)
Definition roadmap_update (v : json) : GoalUpdates :=
  {| set_userId := None; set_title := None; set_description := None;
     set_deadline := None; set_hoursPerDay := None; set_adjustmentMessage := None;
     set_roadmap := Some v; set_createdAt := None |}.

(** The subdocument that a new entry [{ day: d, task: t }] becomes. *)
Definition pending_entry (id : ObjectId) (d : Z) (t : string) : RoadmapEntry :=
  {| entry_id := Some id; day := Some d; task := Some t; completed := Some false |}.

(** An address that is no property name of [Object.prototype] and none of
    [__proto__], [otp] and [expires]: [otpStore] inherits nothing under
    it. *)
Definition plain_address (e : string) : bool :=
  negb (String.eqb e "__proto__") && negb (String.eqb e "otp")
  && negb (String.eqb e "expires") && negb (bool_decide (e ∈ object_prototype_names)).

(** [v.day] and [v.task] of an element of the returned roadmap. *)
Definition item_field (v : json) (k : string) : option json :=
  match v with
  | JObj props => obj_get props k
  | _ => None
  end.

(** ** Sample requests

    Concrete states, requests and generator answers on which the handlers
    are run with the reference runtime. *)
Module Sample.

Definition alice : ObjectId := 161%N.
Definition bob : ObjectId := 178%N.

(** The ObjectIds handed out during a request: [...0f01], [...0f02], ... *)
Definition oids (i : nat) : ObjectId := N.of_nat (3841 + i).
Definition goal_hex : string := "000000000000000000000f01".
Definition task_hex : string := "000000000000000000000f02".

Definition today : string := "Mon Nov 02 2026".
Definition now : Z := 1793577600000.

Definition body : CreateBody :=
  {| body_title := Some (JStr "Learn guitar");
     body_description := Some (JStr "Play three songs");
     body_deadline := Some (JStr "2026-11-07");
     body_hoursPerDay := Some (JNum 1) |}.

Definition empty : State :=
  {| goals := ∅;
     users := [ {| name := "Alice"; email := "alice@example.org";
                   password := Reference.hash "correct horse" |} ];
     otpStore := {| own := ∅; proto := None |} |}.

Definition quoted (s : string) : string := dq +:+ s +:+ dq.

Definition entry_text (d : Z) (t : string) : string :=
  "{ " +:+ quoted "day" +:+ ": " +:+ pretty d +:+ ", " +:+ quoted "task" +:+ ": "
  +:+ quoted t +:+ " }".

(** A fenced answer with a two-day plan. *)
Definition two_days_text : string :=
  fence_json +:+ nl +:+ "{ " +:+ quoted "adjustmentMessage" +:+ ": null, "
  +:+ quoted "roadmap" +:+ ": [ " +:+ entry_text 1 "Hold the guitar" +:+ ", "
  +:+ entry_text 2 "Two chords" +:+ " ] }" +:+ nl +:+ fence +:+ nl.

Definition two_days : json :=
  JObj [("adjustmentMessage", JNull);
        ("roadmap", JArr [JObj [("day", JNum 1); ("task", JStr "Hold the guitar")];
                          JObj [("day", JNum 2); ("task", JStr "Two chords")]])].

(** The state after Alice's goal with that plan has been created. *)
Definition alice_goal : Goal :=
  {| userId := Some alice; title := Some "Learn guitar";
     description := Some "Play three songs"; deadline := Some 1794009600000;
     hoursPerDay := Some 1; adjustmentMessage := None;
     roadmap := Some [ Some {| entry_id := Some 3842%N; day := Some 1;
                               task := Some "Hold the guitar";
                               completed := Some false |};
                       Some {| entry_id := Some 3843%N; day := Some 2;
                               task := Some "Two chords";
                               completed := Some false |} ];
     createdAt := Some now |}.

Definition with_goal : State := set_goals empty (<[3841%N := alice_goal]> ∅).

(** The Goal that Create builds from [body] for a roadmap and a message. *)
Definition created (a : option string) (r : list (option RoadmapEntry)) : Goal :=
  {| userId := Some alice; title := Some "Learn guitar";
     description := Some "Play three songs"; deadline := Some 1794009600000;
     hoursPerDay := Some 1; adjustmentMessage := a; roadmap := Some r;
     createdAt := Some now |}.

Definition first_day : RoadmapEntry :=
  {| entry_id := Some 3842%N; day := Some 1;
     task := Some "Hold the guitar"; completed := Some false |}.

(** The same request with a deadline ten years away. *)
Definition far_body : CreateBody :=
  {| body_title := Some (JStr "Learn guitar");
     body_description := Some (JStr "Play three songs");
     body_deadline := Some (JStr "2036-11-02");
     body_hoursPerDay := Some (JNum 1) |}.

(** The OTP table after Alice asked for a reset at [now]. *)
Definition pending : State :=
  set_otpStore empty
    (otp_set "alice@example.org" {| otp := "483920"; expires := now + 600000 |}
       (otpStore empty)).

(** An answer that is a JSON text and not an object. *)
Definition number_text : string := "42".

(** An answer whose plan has [n] days. *)
Definition long_plan_text (n : nat) : string :=
  "{ " +:+ quoted "adjustmentMessage" +:+ ": " +:+ quoted "Ten years is long" +:+ ", "
  +:+ quoted "roadmap" +:+ ": [ "
  +:+ String.concat ", " (List.map (fun i => entry_text (Z.of_nat (S i)) "Practice") (seq 0 n))
  +:+ " ] }".

(** Answers whose [adjustmentMessage] is falsy, and one without fields. *)
Definition falsy_text (v : string) : string :=
  "{ " +:+ quoted "adjustmentMessage" +:+ ": " +:+ v +:+ ", "
  +:+ quoted "roadmap" +:+ ": [ " +:+ entry_text 1 "Hold the guitar" +:+ " ] }".

Definition no_fields_text : string := fence_json +:+ nl +:+ "{}" +:+ nl +:+ fence.

Definition empty_updates : GoalUpdates :=
  {| set_userId := None; set_title := None; set_description := None;
     set_deadline := None; set_hoursPerDay := None; set_adjustmentMessage := None;
     set_roadmap := None; set_createdAt := None |}.



(** [{ roadmap: [{ day: 2, task: "Two chords" }] }]: day 1 skipped. *)
Definition skip_day : GoalUpdates :=
  {| set_userId := None; set_title := None; set_description := None;
     set_deadline := None; set_hoursPerDay := None; set_adjustmentMessage := None;
     set_roadmap := Some (JArr [JObj [("day", JNum 2); ("task", JStr "Two chords")]]);
     set_createdAt := None |}.

(** [{ roadmap: [{ _id: "...0f02", day: 1, task: "Hold the guitar",
    completed: null }] }] *)
Definition null_completed : GoalUpdates :=
  {| set_userId := None; set_title := None; set_description := None;
     set_deadline := None; set_hoursPerDay := None; set_adjustmentMessage := None;
     set_roadmap := Some (JArr [JObj [("_id", JStr task_hex); ("day", JNum 1);
                                      ("task", JStr "Hold the guitar");
                                      ("completed", JNull)]]);
     set_createdAt := None |}.

(** An answer whose only entry sets [completed] itself. *)
Definition done_text : string :=
  "{ " +:+ quoted "roadmap" +:+ ": [ { " +:+ quoted "day" +:+ ": 1, " +:+ quoted "task"
  +:+ ": " +:+ quoted "Hold the guitar" +:+ ", " +:+ quoted "completed" +:+ ": true } ] }".

(** An answer whose only entry sets [completed] to null. *)
Definition null_text : string :=
  "{ " +:+ quoted "roadmap" +:+ ": [ { " +:+ quoted "day" +:+ ": 1, " +:+ quoted "task"
  +:+ ": " +:+ quoted "Hold the guitar" +:+ ", " +:+ quoted "completed" +:+ ": null } ] }".

Definition bob_hex : string := "0000000000000000000000b2".
Definition second_task_hex : string := "000000000000000000000f03".
Definition unknown_hex : string := "000000000000000000000fff".

(** [{ userId: "...b2" }]: the Goal is handed to Bob. *)
Definition give_to_bob : GoalUpdates :=
  {| set_userId := Some (JStr bob_hex); set_title := None; set_description := None;
     set_deadline := None; set_hoursPerDay := None; set_adjustmentMessage := None;
     set_roadmap := None; set_createdAt := None |}.

(** A request without a title. *)
Definition untitled : CreateBody :=
  {| body_title := None;
     body_description := Some (JStr "Play three songs");
     body_deadline := Some (JStr "2026-11-07");
     body_hoursPerDay := Some (JNum 1) |}.

Definition second_day : RoadmapEntry :=
  {| entry_id := Some 3843%N; day := Some 2;
     task := Some "Two chords"; completed := Some false |}.

Definition alice_user : User :=
  {| name := "Alice"; email := "alice@example.org";
     password := Reference.hash "correct horse" |}.

(** An answer in a fence whose tag is written in capitals. *)
Definition capitals_text : string :=
  fence +:+ "JSON" +:+ nl +:+ "{}" +:+ nl +:+ fence.

(** An answer whose [roadmap] is a number. *)
Definition seven_text : string := "{ " +:+ quoted "roadmap" +:+ ": 7 }".

(** [{ roadmap: null }] *)
Definition null_roadmap : GoalUpdates :=
  {| set_userId := None; set_title := None; set_description := None;
     set_deadline := None; set_hoursPerDay := None; set_adjustmentMessage := None;
     set_roadmap := Some JNull; set_createdAt := None |}.

(** [{ title: "" }] *)
Definition blank_title : GoalUpdates :=
  {| set_userId := None; set_title := Some (JStr ""); set_description := None;
     set_deadline := None; set_hoursPerDay := None; set_adjustmentMessage := None;
     set_roadmap := None; set_createdAt := None |}.

(** Alice's goal after [{ title: "" }] has been stored. *)
Definition blank_goal : Goal :=
  {| userId := Some alice; title := Some "";
     description := Some "Play three songs"; deadline := Some 1794009600000;
     hoursPerDay := Some 1; adjustmentMessage := None;
     roadmap := roadmap alice_goal; createdAt := Some now |}.

Definition with_blank_goal : State := set_goals empty (<[3841%N := blank_goal]> ∅).

(** Alice's goal after [{ roadmap: null }] has been stored. *)
Definition bare_goal : Goal :=
  {| userId := Some alice; title := Some "Learn guitar";
     description := Some "Play three songs"; deadline := Some 1794009600000;
     hoursPerDay := Some 1; adjustmentMessage := None;
     roadmap := None; createdAt := Some now |}.

Definition with_bare_goal : State := set_goals empty (<[3841%N := bare_goal]> ∅).

(** A user whose address is the name of a method of every object. *)
Definition method_user : User :=
  {| name := "Mallory"; email := "toString";
     password := Reference.hash "tr0ub4dor" |}.

Definition with_method_user : State := set_users empty [alice_user; method_user].

End Sample.

(** ** Facts about the Create handler *)

Section CreateFacts.
Context `{rt : JSRuntime}.

Lemma cast_entries_length oids items es :
  cast_entries oids items = Some es -> length es = length items.
Proof.
  revert oids es. induction items as [|v items IH]; intros oids es H; simpl in H.
  - by inversion H.
  - destruct (cast_entry (oids O) v) as [e|]; [|done]. simpl in H.
    destruct (cast_entries _ items) as [es'|] eqn:E; [|done]. simpl in H.
    inversion H; subst. simpl. f_equal. by eapply IH.
Qed.

Lemma expected_entry_pending fresh v s :
  expected_entry v = true -> cast_entry fresh v = Some s ->
  completed <$> s = Some (Some false).
Proof.
  destruct v as [| | | | |props]; try done. simpl. unfold cast_subdocument.
  intros Hwf Hc.
  assert (Hcompleted : obj_get props "completed" = None).
  { destruct (obj_get props "day") as [[]|]; try done.
    destruct (obj_get props "task") as [[]|]; try done.
    clear Hc. induction props as [|[k x] props IH]; [done|].
    simpl in Hwf. apply andb_prop in Hwf as [Hk Hrest]. simpl.
    destruct (String.eqb_spec k "completed") as [->|_]; [done|]. by apply IH. }
  rewrite Hcompleted in Hc.
  destruct (match obj_get props "_id" with Some x => castObjectId x | None => _ end);
    [|done]. simpl in Hc.
  destruct (cast_path castNumber _); [|done]. simpl in Hc.
  destruct (cast_path castString _); [|done]. simpl in Hc.
  by inversion Hc.
Qed.

Lemma expected_entry_casts fresh v :
  expected_entry v = true -> is_Some (cast_entry fresh v).
Proof.
  destruct v as [| | | | |props]; try done. simpl. unfold cast_subdocument.
  intros Hwf.
  destruct (obj_get props "day") as [[| |d| | |]|] eqn:Hd; try done.
  destruct (obj_get props "task") as [[| | |t| |]|] eqn:Ht; try done.
  assert (Hnone : forall k, k <> "day" -> k <> "task" -> obj_get props k = None).
  { intros k Hk1 Hk2. clear Hd Ht.
    induction props as [|[k' x] props IH]; [done|].
    simpl in Hwf. apply andb_prop in Hwf as [Hk Hrest]. simpl.
    destruct (String.eqb_spec k' k) as [->|_]; [|by apply IH].
    apply orb_prop in Hk as [Hk|Hk]; apply String.eqb_eq in Hk; congruence. }
  rewrite !Hnone by done. simpl. eauto.
Qed.

Lemma cast_entries_pending oids items es :
  forallb expected_entry items = true -> cast_entries oids items = Some es ->
  Forall (fun s => completed <$> s = Some (Some false)) es.
Proof.
  revert oids es. induction items as [|v items IH]; intros oids es Hwf H; simpl in *.
  - inversion H. constructor.
  - apply andb_prop in Hwf as [Hv Hrest].
    destruct (cast_entry (oids O) v) as [e|] eqn:Ee; [|done]. simpl in H.
    destruct (cast_entries _ items) as [es'|] eqn:E; [|done]. simpl in H.
    inversion H; subst. constructor; [by eapply expected_entry_pending|by eapply IH].
Qed.

Lemma cast_entries_expected oids items :
  forallb expected_entry items = true -> is_Some (cast_entries oids items).
Proof.
  revert oids. induction items as [|v items IH]; intros oids Hwf; simpl in *; [eauto|].
  apply andb_prop in Hwf as [Hv Hrest].
  destruct (expected_entry_casts (oids O) v Hv) as [e ->].
  destruct (IH (fun i => oids (S i)) Hrest) as [es ->]. simpl. eauto.
Qed.

(** Whether the properties of an element cast does not depend on the
    ObjectId generated for it. *)
Lemma cast_subdocument_fresh fresh fresh' props :
  casts (cast_subdocument fresh props) = casts (cast_subdocument fresh' props).
Proof.
  unfold cast_subdocument.
  destruct (obj_get props "_id") as [x|]; [done|]. simpl.
  destruct (cast_path castNumber _); [|done]. simpl.
  destruct (cast_path castString _); [|done]. simpl.
  by destruct (match obj_get props "completed" with Some x => castBoolean x | None => _ end).
Qed.

Lemma refused_entry_cast fresh v :
  refused_entry v = true -> cast_entry fresh v = None.
Proof.
  destruct v as [|b|n|s|items|props]; simpl; try done.
  rewrite (cast_subdocument_fresh _ fresh).
  by destruct (cast_subdocument fresh props).
Qed.

Lemma refused_entries_cast oids items :
  existsb refused_entry items = true -> cast_entries oids items = None.
Proof.
  revert oids. induction items as [|v items IH]; intros oids H; [done|].
  simpl in *. apply orb_prop in H as [H|H].
  - by rewrite (refused_entry_cast _ _ H).
  - rewrite (IH _ H). by destruct (cast_entry (oids O) v).
Qed.

Lemma refused_roadmap_cast oids v :
  refused_roadmap v = true -> cast_roadmap oids v = None.
Proof.
  destruct v as [|b|n|s|items|props]; simpl; try done; intros H.
  - by rewrite (refused_entries_cast oids _ H).
  - rewrite (cast_subdocument_fresh _ (oids O)) in H.
    by destruct (cast_subdocument (oids O) props).
Qed.

(** What [new Goal] makes of its arguments. *)
Lemma new_Goal_inv oids now uid body a r goal :
  new_Goal oids now uid body a r = Some goal ->
  cast_path castString (body_title body) = Some (title goal)
  /\ cast_path castString (body_description body) = Some (description goal)
  /\ castString a = Some (adjustmentMessage goal)
  /\ cast_roadmap (fun i => oids (S i)) r = Some (roadmap goal)
  /\ userId goal = Some uid.
Proof.
  unfold new_Goal. intros H.
  destruct (cast_path castString (body_title body)); [|done]. simpl in H.
  destruct (cast_path castString (body_description body)); [|done]. simpl in H.
  destruct (cast_path castDate _); [|done]. simpl in H.
  destruct (cast_path castNumber _); [|done]. simpl in H.
  destruct (castString a); [|done]. simpl in H.
  destruct (cast_roadmap _ r); [|done]. simpl in H.
  by inversion H.
Qed.

Lemma new_Goal_valid oids now uid body a r a' r' :
  valid_body body = true -> castString a = Some a' ->
  cast_roadmap (fun i => oids (S i)) r = Some r' ->
  exists goal, new_Goal oids now uid body a r = Some goal
    /\ required_ok goal = true /\ adjustmentMessage goal = a' /\ roadmap goal = r'.
Proof.
  unfold valid_body, new_Goal. intros Hv Ha Hr.
  destruct (cast_path castString (body_title body)) as [[t|]|]; try done.
  destruct (cast_path castString (body_description body)); try (by rewrite andb_false_r in Hv).
  destruct (cast_path castDate _); try (by rewrite andb_false_r in Hv).
  destruct (cast_path castNumber _); try (by rewrite andb_false_r in Hv).
  rewrite Ha, Hr. simpl. eexists. split; [done|]. simpl.
  repeat split. by rewrite !andb_true_r in Hv.
Qed.

(** Create is all or nothing: it fails and leaves the state alone, or it
    answers with the new document and adds it under a key that was free. *)
Lemma create_cases st uid body today now oids gen :
  create st uid body today now oids gen = (GenerationFailure, st)
  \/ exists a r goal,
       generate_plan gen (build_prompt today body) = Some (a, r)
       /\ new_Goal oids now uid body a r = Some goal
       /\ required_ok goal = true
       /\ goals st !! oids O = None
       /\ create st uid body today now oids gen
          = (JsonGoal (oids O, goal), set_goals st (<[oids O := goal]> (goals st))).
Proof.
  unfold create, GenerationFailure.
  destruct (generate_plan gen _) as [[a r]|] eqn:Hp; [|by left].
  destruct (new_Goal oids now uid body a r) as [goal|] eqn:Hg; [|by left].
  destruct (required_ok goal) eqn:Hreq; [|by left].
  destruct (goals st !! oids O) eqn:Hfree; [by left|].
  right. by exists a, r, goal.
Qed.

Lemma create_goal_inv st uid body today now oids gen doc st' :
  create st uid body today now oids gen = (JsonGoal doc, st') ->
  exists a r goal,
    generate_plan gen (build_prompt today body) = Some (a, r)
    /\ new_Goal oids now uid body a r = Some goal
    /\ doc = (oids O, goal)
    /\ st' = set_goals st (<[oids O := goal]> (goals st)).
Proof.
  intros H. destruct (create_cases st uid body today now oids gen)
    as [E|(a & r & goal & Hp & Hg & _ & _ & E)]; rewrite E in H.
  - discriminate.
  - inversion H; subst. by exists a, r, goal.
Qed.

Lemma create_success st uid body today now oids gen a r goal :
  generate_plan gen (build_prompt today body) = Some (a, r) ->
  new_Goal oids now uid body a r = Some goal ->
  required_ok goal = true ->
  goals st !! oids O = None ->
  create st uid body today now oids gen
  = (JsonGoal (oids O, goal), set_goals st (<[oids O := goal]> (goals st))).
Proof. intros Hp Hg Hreq Hfree. unfold create. by rewrite Hp, Hg, Hreq, Hfree. Qed.

Lemma generate_plan_parsed gen prompt text parsed :
  gen prompt = Some text -> JSON_parse (strip_fences text) = Some parsed ->
  generate_plan gen prompt
  = r ← get_prop parsed "roadmap"; a ← get_prop parsed "adjustmentMessage";
    Some (js_or a JNull, js_or r (JArr [])).
Proof. intros Hg Hp. unfold generate_plan. by rewrite Hg; simpl; rewrite Hp. Qed.

End CreateFacts.

(** ** Create: the roadmap that is persisted *)

Section CreateClaims.
Context `{rt : JSRuntime}.

Lemma well_formed_plan gen prompt text parsed :
  gen prompt = Some text -> JSON_parse (strip_fences text) = Some parsed ->
  well_formed parsed = true ->
  exists a, generate_plan gen prompt = Some (a, JArr (returned_roadmap parsed))
    /\ is_Some (castString a)
    /\ forallb expected_entry (returned_roadmap parsed) = true.
Proof.
  intros Hg Hp Hwf. rewrite (generate_plan_parsed _ _ _ _ Hg Hp).
  destruct parsed as [| | | | |props]; try done. simpl in *.
  destruct (obj_get props "roadmap") as [[| | | |items|]|]; try done. simpl.
  apply andb_prop in Hwf as [Hitems Hadj].
  eexists. split; [done|]. split; [|done].
  destruct (obj_get props "adjustmentMessage") as [[| | |s| |]|]; simpl; try done; eauto.
  destruct (negb (String.eqb s "")); simpl; eauto.
Qed.

(** C1.  When the generator's answer parses as a well-formed object, the
    Goal that Create persists and returns has a roadmap as long as the
    roadmap sequence of the parsed answer, every entry of it has
    [completed = false], and for valid inputs and an unused ObjectId the
    Goal is indeed persisted and returned. *)
Theorem create_roadmap_follows_response st uid body today now oids gen text parsed :
  gen (build_prompt today body) = Some text ->
  JSON_parse (strip_fences text) = Some parsed ->
  well_formed parsed = true ->
  (forall doc st',
      create st uid body today now oids gen = (JsonGoal doc, st') ->
      goals st' !! doc.1 = Some doc.2
      /\ exists slots,
           roadmap doc.2 = Some slots
           /\ length slots = length (returned_roadmap parsed)
           /\ Forall (fun s => exists e, s = Some e /\ completed e = Some false) slots)
  /\ (valid_body body = true -> goals st !! oids O = None ->
      exists goal,
        create st uid body today now oids gen
        = (JsonGoal (oids O, goal), set_goals st (<[oids O := goal]> (goals st)))).
Proof.
  intros Hg Hp Hwf.
  destruct (well_formed_plan _ _ _ _ Hg Hp Hwf) as (a & Hplan & [a' Ha] & Hitems).
  split.
  - intros doc st' Hc.
    destruct (create_goal_inv _ _ _ _ _ _ _ _ _ Hc) as (a0 & r0 & goal & Hplan' & Hnew & -> & ->).
    rewrite Hplan in Hplan'. inversion Hplan'; subst a0 r0.
    destruct (new_Goal_inv _ _ _ _ _ _ _ Hnew) as (_ & _ & _ & Hr & _).
    simpl in *. split; [by rewrite lookup_insert_eq|].
    destruct (cast_entries _ (returned_roadmap parsed)) as [slots|] eqn:Hs; [|done].
    simpl in Hr. exists slots. split; [congruence|].
    split; [by eapply cast_entries_length|].
    eapply Forall_impl; [by eapply cast_entries_pending|].
    intros [e|] He; [|done]. exists e. split; [done|]. simpl in He. congruence.
  - intros Hvalid Hfree.
    destruct (cast_entries_expected (fun i => oids (S i)) _ Hitems) as [es Hes].
    assert (Hcast : cast_roadmap (fun i => oids (S i)) (JArr (returned_roadmap parsed))
                    = Some (Some es)) by (simpl; by rewrite Hes).
    destruct (new_Goal_valid oids now uid body a (JArr (returned_roadmap parsed)) a'
                (Some es) Hvalid Ha Hcast) as (goal & Hnew & Hreq & _ & _).
    exists goal. by eapply create_success.
Qed.

(** C2, as amended.  Create answers GenerationFailure and leaves the
    state as it was when the generation call errors, when the text it
    returns is not a JSON text once the fences are stripped, when that text
    is the JSON [null], and when the parsed value carries an
    [adjustmentMessage] or a [roadmap] that Mongoose refuses for the path.
    Every call either answers GenerationFailure with the state as it was or
    stores exactly the Goal it answers with.  A parsed value that has
    neither field (a number, a string, a boolean, an array, an object with
    other fields) is accepted: for valid inputs and an unused ObjectId the
    Goal is stored, with an empty roadmap and no adjustment message. *)
Theorem create_generation_failure st uid body today now oids gen :
  ((gen (build_prompt today body) = None
    \/ exists text, gen (build_prompt today body) = Some text
         /\ (JSON_parse (strip_fences text) = None
             \/ JSON_parse (strip_fences text) = Some JNull
             \/ exists parsed a r,
                  JSON_parse (strip_fences text) = Some parsed
                  /\ get_prop parsed "adjustmentMessage" = Some a
                  /\ get_prop parsed "roadmap" = Some r
                  /\ (castString (js_or a JNull) = None
                      \/ refused_roadmap (js_or r (JArr [])) = true))) ->
   create st uid body today now oids gen = (GenerationFailure, st))
  /\ (forall resp st',
        create st uid body today now oids gen = (resp, st') ->
        (resp = GenerationFailure /\ st' = st)
        \/ exists goal, resp = JsonGoal (oids O, goal)
             /\ goals st !! oids O = None
             /\ st' = set_goals st (<[oids O := goal]> (goals st)))
  /\ (forall text parsed,
        gen (build_prompt today body) = Some text ->
        JSON_parse (strip_fences text) = Some parsed ->
        get_prop parsed "adjustmentMessage" = Some None ->
        get_prop parsed "roadmap" = Some None ->
        valid_body body = true -> goals st !! oids O = None ->
        exists goal,
          create st uid body today now oids gen
          = (JsonGoal (oids O, goal), set_goals st (<[oids O := goal]> (goals st)))
          /\ adjustmentMessage goal = None /\ roadmap goal = Some []).
Proof.
  split; [|split].
  - intros Hfail. unfold create.
    destruct Hfail as [Hg|(text & Hg & [Hp|[Hp|(parsed & a & r & Hp & Ha & Hr & Hbad)]])].
    + unfold generate_plan. by rewrite Hg.
    + unfold generate_plan. rewrite Hg. simpl. by rewrite Hp.
    + unfold generate_plan. rewrite Hg. simpl. by rewrite Hp.
    + rewrite (generate_plan_parsed _ _ _ _ Hg Hp), Hr, Ha. simpl.
      unfold new_Goal.
      destruct (cast_path castString (body_title body)); [|done]. simpl.
      destruct (cast_path castString (body_description body)); [|done]. simpl.
      destruct (cast_path castDate _); [|done]. simpl.
      destruct (cast_path castNumber _); [|done]. simpl.
      destruct Hbad as [Hbad|Hbad]; [by rewrite Hbad|].
      rewrite (refused_roadmap_cast _ _ Hbad).
      by destruct (castString (js_or a JNull)).
  - intros resp st' Hc.
    destruct (create_cases st uid body today now oids gen)
      as [E|(a & r & goal & _ & _ & _ & Hfree & E)]; rewrite E in Hc;
      inversion Hc; subst; [by left|right; by exists goal].
  - intros text parsed Hg Hp Ha Hr Hvalid Hfree.
    pose proof (generate_plan_parsed _ _ _ _ Hg Hp) as Hplan.
    rewrite Hr, Ha in Hplan. simpl in Hplan.
    destruct (new_Goal_valid oids now uid body JNull (JArr []) None (Some [])
                Hvalid eq_refl eq_refl) as (goal & Hnew & Hreq & Hna & Hnr).
    exists goal. split; [by eapply create_success|done].
Qed.

(** C10.  When the parsed answer carries an [adjustmentMessage] that is
    falsy (the empty string, [false], [0], [null]), the Goal that Create
    persists and returns has [adjustmentMessage] null, not that value; and
    for valid inputs, a roadmap that casts and an unused ObjectId the Goal
    is indeed persisted and returned. *)
Theorem create_falsy_adjustment_is_null st uid body today now oids gen text parsed v :
  gen (build_prompt today body) = Some text ->
  JSON_parse (strip_fences text) = Some parsed ->
  get_prop parsed "adjustmentMessage" = Some (Some v) ->
  truthy v = false ->
  (forall doc st',
      create st uid body today now oids gen = (JsonGoal doc, st') ->
      goals st' !! doc.1 = Some doc.2 /\ adjustmentMessage doc.2 = None)
  /\ (forall r entries,
        get_prop parsed "roadmap" = Some r ->
        cast_roadmap (fun i => oids (S i)) (js_or r (JArr [])) = Some entries ->
        valid_body body = true -> goals st !! oids O = None ->
        exists goal,
          create st uid body today now oids gen
          = (JsonGoal (oids O, goal), set_goals st (<[oids O := goal]> (goals st)))
          /\ adjustmentMessage goal = None /\ roadmap goal = entries).
Proof.
  intros Hg Hp Hadj Hfalsy.
  pose proof (generate_plan_parsed _ _ _ _ Hg Hp) as Hplan. rewrite Hadj in Hplan.
  split.
  - intros doc st' Hc.
    destruct (create_goal_inv _ _ _ _ _ _ _ _ _ Hc) as (a & r & goal & Hplan' & Hnew & -> & ->).
    rewrite Hplan in Hplan'.
    destruct (get_prop parsed "roadmap") as [r0|]; [|done]. simpl in Hplan'.
    rewrite Hfalsy in Hplan'. inversion Hplan'; subst a r.
    destruct (new_Goal_inv _ _ _ _ _ _ _ Hnew) as (_ & _ & Ha & _ & _).
    simpl in *. split; [by rewrite lookup_insert_eq|congruence].
  - intros r entries Hr Hcast Hvalid Hfree.
    rewrite Hr in Hplan. simpl in Hplan. rewrite Hfalsy in Hplan.
    destruct (new_Goal_valid oids now uid body JNull (js_or r (JArr [])) None entries
                Hvalid eq_refl Hcast) as (goal & Hnew & Hreq & Ha & Hroad).
    exists goal. split; [by eapply create_success|done].
Qed.

End CreateClaims.

(** ** The generator: fences, defaults and the prompt *)

Section Strings.

Lemma append_cons c (s t : string) : String c s +:+ t = String c (s +:+ t).
Proof. reflexivity. Qed.

Lemma append_nil (t : string) : "" +:+ t = t.
Proof. reflexivity. Qed.

Lemma append_assoc (a b c : string) : (a +:+ b) +:+ c = a +:+ (b +:+ c).
Proof.
  induction a as [|x a IH]; [done|].
  by rewrite !append_cons, IH.
Qed.

Lemma append_empty_r (a : string) : a +:+ "" = a.
Proof. induction a as [|x a IH]; [done|]. by rewrite append_cons, IH. Qed.

Lemma occurs_in_concat sep x l : In x l -> occurs_in x (String.concat sep l).
Proof.
  induction l as [|y l IH]; intros Hin; [done|].
  destruct Hin as [->|Hin].
  - destruct l as [|z l].
    + exists "", "". by rewrite append_empty_r.
    + by exists "", (sep +:+ String.concat sep (z :: l)).
  - destruct l as [|z l]; [done|].
    destruct (IH Hin) as (before & after & E).
    exists (y +:+ sep +:+ before), after.
    change (String.concat sep (y :: z :: l))
      with (y +:+ sep +:+ String.concat sep (z :: l)).
    by rewrite E, !append_assoc.
Qed.

Lemma occurs_in_suffix a x t : occurs_in (a +:+ x) t -> occurs_in x t.
Proof.
  intros (before & after & ->). exists (before +:+ a), after.
  by rewrite !append_assoc.
Qed.

Lemma prefix_cons a s1 b s2 :
  String.prefix (String a s1) (String b s2)
  = if ascii_dec a b then String.prefix s1 s2 else false.
Proof. reflexivity. Qed.

Lemma prefix_nil s : String.prefix "" s = true.
Proof. by destruct s. Qed.

Lemma fence_unfold : fence = String backtick (String backtick (String backtick "")).
Proof. reflexivity. Qed.

Lemma fence_json_unfold :
  fence_json = String backtick (String backtick (String backtick "json")).
Proof. reflexivity. Qed.

Lemma replace_fences_scan c rest :
  replace_fences_from 0 (String c rest)
  = if String.prefix fence_json (String c rest) then replace_fences_from 6 rest
    else if String.prefix fence (String c rest) then replace_fences_from 2 rest
    else String c (replace_fences_from 0 rest).
Proof. reflexivity. Qed.

Lemma replace_fences_skip k c rest :
  replace_fences_from (S k) (String c rest) = replace_fences_from k rest.
Proof. reflexivity. Qed.

(** No fence begins at a character that is not a backtick. *)
Lemma replace_fences_keep c rest :
  Ascii.eqb c backtick = false ->
  replace_fences_from 0 (String c rest) = String c (replace_fences_from 0 rest).
Proof.
  intros Hc. rewrite replace_fences_scan, fence_json_unfold, fence_unfold, !prefix_cons.
  destruct (ascii_dec backtick c) as [<-|_]; [by rewrite Ascii.eqb_refl in Hc|done].
Qed.

Lemma replace_fences_plain s t :
  no_backtick s = true ->
  replace_fences_from 0 (s +:+ t) = s +:+ replace_fences_from 0 t.
Proof.
  induction s as [|c s IH]; intros Hs; [done|].
  simpl in Hs. apply andb_prop in Hs as [Hc Hs]. apply negb_true_iff in Hc.
  rewrite !append_cons, replace_fences_keep by done. by rewrite IH.
Qed.

Lemma replace_fences_no_backtick s :
  no_backtick s = true -> replace_fences_from 0 s = s.
Proof.
  intros Hs. rewrite <- (append_empty_r s) at 1.
  rewrite replace_fences_plain by done. apply append_empty_r.
Qed.

(** The opening fence with its language tag is dropped. *)
Lemma replace_fences_json_fence t :
  replace_fences_from 0 (fence_json +:+ t) = replace_fences_from 0 t.
Proof.
  rewrite fence_json_unfold, !append_cons, append_nil.
  rewrite replace_fences_scan, fence_json_unfold, !prefix_cons.
  destruct (ascii_dec backtick backtick); [|done].
  repeat (match goal with
          | |- context [ascii_dec ?a ?b] => destruct (ascii_dec a b); [|done]
          end).
  rewrite prefix_nil. by rewrite !replace_fences_skip.
Qed.

(** A bare fence is dropped; what follows is scanned afresh unless it
    begins with the tag. *)
Lemma replace_fences_bare_fence t :
  String.prefix "json" t = false ->
  replace_fences_from 0 (fence +:+ t) = replace_fences_from 0 t.
Proof.
  intros Ht. rewrite fence_unfold, !append_cons, append_nil.
  rewrite replace_fences_scan, fence_json_unfold, fence_unfold, !prefix_cons.
  destruct (ascii_dec backtick backtick); [|done].
  rewrite Ht, prefix_nil. by rewrite !replace_fences_skip.
Qed.

(** The tag is not read across the end of a text without backticks. *)
Lemma prefix_tag_before_fence answer rest :
  String.prefix "json" answer = false ->
  String.prefix "json" (answer +:+ fence +:+ rest) = false.
Proof.
  intros Htag. rewrite fence_unfold, !append_cons, append_nil.
  destruct answer as [|c1 [|c2 [|c3 [|c4 answer]]]];
    rewrite ?append_cons, ?append_nil, ?prefix_cons in *;
    repeat (match goal with
            | |- context [ascii_dec ?a ?b] =>
                destruct (ascii_dec a b) as [E|E];
                [try discriminate E; try subst|try done]
            end; rewrite ?prefix_cons in * ); try done.
  by rewrite prefix_nil in Htag.
Qed.

Lemma replace_fences_fenced pre answer post :
  no_backtick pre = true -> no_backtick answer = true -> no_backtick post = true ->
  String.prefix "json" post = false ->
  replace_fences (pre +:+ fence_json +:+ answer +:+ fence +:+ post)
  = pre +:+ answer +:+ post
  /\ (String.prefix "json" answer = false ->
      replace_fences (pre +:+ fence +:+ answer +:+ fence +:+ post)
      = pre +:+ answer +:+ post).
Proof.
  intros Hpre Hanswer Hpost Htag. unfold replace_fences.
  assert (Hclose : replace_fences_from 0 (answer +:+ fence +:+ post) = answer +:+ post).
  { rewrite replace_fences_plain by done.
    rewrite replace_fences_bare_fence by done.
    by rewrite replace_fences_no_backtick. }
  split.
  - by rewrite replace_fences_plain, replace_fences_json_fence, Hclose.
  - intros Htag'. rewrite replace_fences_plain by done.
    rewrite replace_fences_bare_fence; [by rewrite Hclose|].
    clear Hclose.
    by apply prefix_tag_before_fence.
Qed.

Lemma has_fence_cons c s :
  has_fence (String c s) = String.prefix fence (String c s) || has_fence s.
Proof. reflexivity. Qed.

Lemma prefix_first a p c s :
  a <> c -> String.prefix (String a p) (String c s) = false.
Proof. intros H. rewrite prefix_cons. by destruct (ascii_dec a c). Qed.

Lemma prefix_same a p s :
  String.prefix (String a p) (String a s) = String.prefix p s.
Proof. rewrite prefix_cons. by destruct (ascii_dec a a). Qed.

Lemma eqb_backtick c : backtick <> c -> Ascii.eqb c backtick = false.
Proof. intros H. apply Ascii.eqb_neq. congruence. Qed.

(** What the scan gives begins with two backticks only if the text does. *)
Lemma replace_fences_two_backticks s :
  String.prefix (String backtick (String backtick "")) (replace_fences_from 0 s) = true ->
  String.prefix (String backtick (String backtick "")) s = true.
Proof.
  destruct s as [|c s]; [done|].
  destruct (ascii_dec backtick c) as [<-|Hc].
  - destruct s as [|d s]; [done|].
    destruct (ascii_dec backtick d) as [<-|Hd]; [by rewrite !prefix_same, prefix_nil|].
    rewrite replace_fences_scan, fence_json_unfold, fence_unfold, !prefix_same.
    rewrite !(prefix_first _ _ _ _ Hd), prefix_same.
    rewrite (replace_fences_keep _ _ (eqb_backtick _ Hd)).
    by rewrite !(prefix_first _ _ _ _ Hd).
  - rewrite (replace_fences_keep _ _ (eqb_backtick _ Hc)).
    by rewrite !(prefix_first _ _ _ _ Hc).
Qed.

(** No fence is left by the scan, whatever the text. *)
Lemma replace_fences_from_no_fence s :
  forall skip, has_fence (replace_fences_from skip s) = false.
Proof.
  induction s as [|c s IH]; intros skip; [by destruct skip|].
  destruct skip as [|k]; [|by rewrite replace_fences_skip].
  rewrite replace_fences_scan.
  destruct (String.prefix fence_json (String c s)); [done|].
  destruct (String.prefix fence (String c s)) eqn:Hf; [done|].
  rewrite has_fence_cons, IH, orb_false_r.
  rewrite fence_unfold in *.
  destruct (ascii_dec backtick c) as [<-|Hc]; [|by apply prefix_first].
  rewrite prefix_same in *.
  destruct (String.prefix (String backtick (String backtick "")) (replace_fences_from 0 s))
    eqn:Hout; [|done].
  apply replace_fences_two_backticks in Hout. congruence.
Qed.

Lemma prefix_append p s q :
  String.prefix p s = true -> String.prefix p (s +:+ q) = true.
Proof.
  revert s. induction p as [|a p IH]; intros s H; [apply prefix_nil|].
  destruct s as [|b s]; [done|].
  rewrite append_cons, prefix_cons in *.
  destruct (ascii_dec a b); [by apply IH|done].
Qed.

Lemma has_fence_append s q : has_fence (s +:+ q) = false -> has_fence s = false.
Proof.
  induction s as [|c s IH]; [done|].
  rewrite append_cons, !has_fence_cons. intros H.
  apply orb_false_elim in H as [Hp Hs]. rewrite (IH Hs), orb_false_r.
  destruct (String.prefix fence (String c s)) eqn:E; [|done].
  apply (prefix_append _ _ q) in E. rewrite append_cons in E. congruence.
Qed.

Lemma trim_start_no_fence s : has_fence s = false -> has_fence (trim_start s) = false.
Proof.
  induction s as [|c s IH]; [done|]. intros H. simpl.
  destruct (is_js_space c); [|done].
  rewrite has_fence_cons in H. apply orb_false_elim in H as [_ H]. by apply IH.
Qed.

Lemma trim_end_prefix s : exists w, s = trim_end s +:+ w.
Proof.
  induction s as [|c s (w & IH)]; [by exists ""|]. simpl.
  destruct (trim_end s) as [|d kept].
  - destruct (is_js_space c); [by exists (String c s)|by exists s].
  - exists w. by rewrite append_cons, <- IH.
Qed.

Lemma trim_no_fence s : has_fence s = false -> has_fence (trim s) = false.
Proof.
  intros H. unfold trim. apply trim_start_no_fence in H.
  destruct (trim_end_prefix (trim_start s)) as [w E]. rewrite E in H.
  by apply has_fence_append in H.
Qed.

(** The scan drops the fences of a fenced text and nothing else. *)
Lemma replace_fences_Fenced text stripped :
  Fenced text stripped -> replace_fences text = stripped.
Proof.
  unfold replace_fences. induction 1 as [s Hs|s t t' Hs _ IH|s t t' Hs Htag _ IH].
  - by apply replace_fences_no_backtick.
  - by rewrite replace_fences_plain, replace_fences_json_fence, IH.
  - by rewrite replace_fences_plain, replace_fences_bare_fence, IH.
Qed.

(** An answer between an opening fence with the tag and a closing fence. *)
Lemma Fenced_answer pre answer post :
  no_backtick pre = true -> no_backtick answer = true -> no_backtick post = true ->
  String.prefix "json" post = false ->
  Fenced (pre +:+ fence_json +:+ answer +:+ fence +:+ post) (pre +:+ answer +:+ post).
Proof.
  intros Hpre Hanswer Hpost Htag.
  apply Fenced_json; [done|]. apply Fenced_bare; [done..|]. by apply Fenced_plain.
Qed.

End Strings.

Section GeneratorClaims.
Context `{rt : JSRuntime}.

(** C8, as amended.  Before the text is parsed, every fence [```json] and
    every fence [```] is removed from it and the white space around the
    rest is trimmed: no [```] is left in what is parsed, and a text whose
    backticks all belong to such fences is parsed as its pieces joined.
    The tag of a fence is removed with it only when it is [json].  The
    parsed value is normalized, whatever the text was: without a [roadmap]
    field the roadmap is the empty sequence and the Goal is created all the
    same, without an [adjustmentMessage] field the adjustment message is
    null. *)
Theorem generator_strips_and_normalizes st uid body today now oids gen text parsed :
  gen (build_prompt today body) = Some text ->
  JSON_parse (strip_fences text) = Some parsed ->
  (forall raw, has_fence (strip_fences raw) = false)
  /\ (forall raw stripped, Fenced raw stripped -> strip_fences raw = trim stripped)
  /\ (forall a r,
        get_prop parsed "adjustmentMessage" = Some a ->
        get_prop parsed "roadmap" = Some r ->
        generate_plan gen (build_prompt today body)
        = Some (js_or a JNull, js_or r (JArr [])))
  /\ (get_prop parsed "roadmap" = Some None ->
      (forall doc st',
          create st uid body today now oids gen = (JsonGoal doc, st') ->
          roadmap doc.2 = Some [])
      /\ (forall a,
            get_prop parsed "adjustmentMessage" = Some a ->
            is_Some (castString (js_or a JNull)) ->
            valid_body body = true -> goals st !! oids O = None ->
            exists goal,
              create st uid body today now oids gen
              = (JsonGoal (oids O, goal), set_goals st (<[oids O := goal]> (goals st)))
              /\ roadmap goal = Some []))
  /\ (get_prop parsed "adjustmentMessage" = Some None ->
      forall doc st',
        create st uid body today now oids gen = (JsonGoal doc, st') ->
        adjustmentMessage doc.2 = None).
Proof.
  intros Hgen Hparse.
  pose proof (generate_plan_parsed _ _ _ _ Hgen Hparse) as Hplan.
  split; [|split; [|split; [|split]]].
  - intros raw. apply trim_no_fence, replace_fences_from_no_fence.
  - intros raw stripped HF. unfold strip_fences. by rewrite (replace_fences_Fenced _ _ HF).
  - intros a r Ha Hr. by rewrite Hplan, Hr, Ha.
  - intros Hno. rewrite Hno in Hplan. simpl in Hplan. split.
    + intros doc st' Hc.
      destruct (create_goal_inv _ _ _ _ _ _ _ _ _ Hc) as (a & r & goal & Hp & Hnew & -> & _).
      rewrite Hplan in Hp.
      destruct (get_prop parsed "adjustmentMessage") as [a0|]; [|done].
      simpl in Hp. inversion Hp; subst a r.
      destruct (new_Goal_inv _ _ _ _ _ _ _ Hnew) as (_ & _ & _ & Hr & _).
      simpl in *. congruence.
    + intros a Ha [a' Ha'] Hvalid Hfree. rewrite Ha in Hplan. simpl in Hplan.
      destruct (new_Goal_valid oids now uid body _ (JArr []) a' (Some []) Hvalid Ha' eq_refl)
        as (goal & Hnew & Hreq & _ & Hr).
      exists goal. split; [by eapply create_success|done].
  - intros Hno doc st' Hc. rewrite Hno in Hplan.
    destruct (create_goal_inv _ _ _ _ _ _ _ _ _ Hc) as (a & r & goal & Hp & Hnew & -> & _).
    rewrite Hplan in Hp.
    destruct (get_prop parsed "roadmap") as [r0|]; [|done].
    simpl in Hp. inversion Hp; subst a r.
    destruct (new_Goal_inv _ _ _ _ _ _ _ Hnew) as (_ & _ & Ha & _ & _).
    simpl in *. congruence.
Qed.

(** C4, as amended.  The limit of 365 days is a rule written in the
    prompt, whatever the request; Create keeps every entry of the array
    that the generator returns, so the roadmap of the resulting Goal is as
    long as that array. *)
Theorem create_keeps_every_entry st uid body today now oids gen text parsed items :
  occurs_in rule_365 (build_prompt today body)
  /\ (gen (build_prompt today body) = Some text ->
      JSON_parse (strip_fences text) = Some parsed ->
      get_prop parsed "roadmap" = Some (Some (JArr items)) ->
      forall doc st',
        create st uid body today now oids gen = (JsonGoal doc, st') ->
        exists slots, roadmap doc.2 = Some slots /\ length slots = length items).
Proof.
  split.
  - apply (occurs_in_suffix "      "), occurs_in_concat.
    unfold prompt_lines. do 10 right. by left.
  - intros Hg Hp Hr doc st' Hc.
    destruct (create_goal_inv _ _ _ _ _ _ _ _ _ Hc) as (a & r & goal & Hplan & Hnew & -> & _).
    rewrite (generate_plan_parsed _ _ _ _ Hg Hp), Hr in Hplan. simpl in Hplan.
    destruct (get_prop parsed "adjustmentMessage"); [|done].
    inversion Hplan; subst a r.
    destruct (new_Goal_inv _ _ _ _ _ _ _ Hnew) as (_ & _ & _ & Hcast & _).
    simpl in *.
    destruct (cast_entries _ items) as [slots|] eqn:Hs; [|done].
    simpl in Hcast. exists slots. split; [congruence|by eapply cast_entries_length].
Qed.

End GeneratorClaims.

(** ** The Goal Service: ownership, toggling and field replacement *)

Section ServiceFacts.
Context `{rt : JSRuntime}.

Lemma set_goals_same st : set_goals st (goals st) = st.
Proof. by destruct st. Qed.

Lemma set_goals_twice st gs gs' : set_goals (set_goals st gs) gs' = set_goals st gs'.
Proof. done. Qed.

Lemma set_roadmap_of_same g slots : roadmap g = Some slots -> set_roadmap_of g slots = g.
Proof. destruct g. simpl. by intros ->. Qed.

(** Validation does not look at the roadmap. *)
Lemma required_ok_set_roadmap g slots : required_ok (set_roadmap_of g slots) = required_ok g.
Proof. done. Qed.

(** The entry found by [roadmap.id] is there and carries the id. *)
Lemma roadmap_id_lookup slots id i :
  roadmap_id slots id = Some i ->
  exists e, slots !! i = Some (Some e) /\ entry_id e = Some id.
Proof.
  revert i. induction slots as [|s slots IH]; intros i H; simpl in H; [done|].
  case_bool_decide as Hid.
  - inversion H; subst. destruct s as [e|]; [|done]. by exists e.
  - destruct (roadmap_id slots id) as [j|] eqn:E; [|done].
    simpl in H. inversion H; subst. by apply IH.
Qed.

(** Toggling keeps the ids, hence what [roadmap.id] finds. *)
Lemma roadmap_id_toggle slots id i :
  roadmap_id (alter (fmap toggle_completed) i slots) id = roadmap_id slots id.
Proof.
  revert i. induction slots as [|s slots IH]; intros i; [by destruct i|].
  destruct i as [|i].
  - simpl. by destruct s.
  - change (alter (fmap toggle_completed) (S i) (s :: slots))
      with (s :: alter (fmap toggle_completed) i slots).
    cbn [roadmap_id]. by rewrite IH.
Qed.

Lemma toggle_completed_changes e : toggle_completed e <> e.
Proof.
  intros H. apply (f_equal completed) in H. simpl in H.
  by destruct (completed e) as [[]|].
Qed.

Lemma toggle_completed_twice e :
  completed (toggle_completed (toggle_completed e)) = Some (default false (completed e))
  /\ (forall b, completed e = Some b -> toggle_completed (toggle_completed e) = e).
Proof.
  split.
  - simpl. by rewrite negb_involutive.
  - intros b Hb. destruct e as [i d t c]. simpl in *. subst c.
    unfold toggle_completed. simpl. by rewrite negb_involutive.
Qed.

Lemma alter_fixed {A} (f : A -> A) (l : list A) i x :
  l !! i = Some x -> f x = x -> alter f i l = l.
Proof.
  revert i. induction l as [|y l IH]; intros i Hl Hf; [done|].
  destruct i as [|i]; simpl in *.
  - inversion Hl; subst. by rewrite Hf.
  - f_equal. by apply IH.
Qed.

(** The handler of [PUT /api/goals/:goalId/task/:taskId] on a goal that
    validates and an entry that exists. *)
Lemma toggle_task_found st uid goalId taskId gid tid goal slots i :
  ObjectId_of_string goalId = Some gid -> goals st !! gid = Some goal ->
  roadmap goal = Some slots -> required_ok goal = true ->
  ObjectId_of_string taskId = Some tid -> roadmap_id slots tid = Some i ->
  toggle_task st uid goalId taskId
  = (JsonGoal (gid, set_roadmap_of goal (alter (fmap toggle_completed) i slots)),
     set_goals st (<[gid := set_roadmap_of goal (alter (fmap toggle_completed) i slots)]>
                     (goals st))).
Proof.
  intros Hg Hl Hr Hv Ht Hi. unfold toggle_task. rewrite Hg, Hl, Hr, Ht. simpl.
  by rewrite Hi, required_ok_set_roadmap, Hv.
Qed.

(** The same request on a goal that does not validate. *)
Lemma toggle_task_invalid st uid goalId taskId gid tid goal slots i :
  ObjectId_of_string goalId = Some gid -> goals st !! gid = Some goal ->
  roadmap goal = Some slots -> required_ok goal = false ->
  ObjectId_of_string taskId = Some tid -> roadmap_id slots tid = Some i ->
  toggle_task st uid goalId taskId = (JsonError 500 "Failed to update task", st).
Proof.
  intros Hg Hl Hr Hv Ht Hi. unfold toggle_task. rewrite Hg, Hl, Hr, Ht. simpl.
  by rewrite Hi, required_ok_set_roadmap, Hv.
Qed.

(** Every answer of the toggle handler: an error and the same state, or
    one goal of the collection with one entry toggled. *)
Lemma toggle_task_cases st uid goalId taskId :
  (exists status msg, toggle_task st uid goalId taskId = (JsonError status msg, st))
  \/ exists gid goal slots i,
       goals st !! gid = Some goal
       /\ roadmap goal = Some slots
       /\ required_ok goal = true
       /\ toggle_task st uid goalId taskId
          = (JsonGoal (gid, set_roadmap_of goal (alter (fmap toggle_completed) i slots)),
             set_goals st (<[gid := set_roadmap_of goal
                                      (alter (fmap toggle_completed) i slots)]>
                             (goals st))).
Proof.
  unfold toggle_task.
  destruct (ObjectId_of_string goalId) as [gid|]; [|left; eauto].
  destruct (goals st !! gid) as [goal|] eqn:Hl; [|left; eauto].
  destruct (roadmap goal) as [slots|] eqn:Hr; [|left; eauto].
  destruct (ObjectId_of_string taskId ≫= roadmap_id slots) as [i|];
    [|left; eauto].
  rewrite required_ok_set_roadmap.
  destruct (required_ok goal) eqn:Hv; [|left; eauto].
  right. by exists gid, goal, slots, i.
Qed.

Lemma find_owned_other st gid uid goal :
  goals st !! gid = Some goal -> userId goal <> Some uid -> find_owned st gid uid = None.
Proof.
  intros Hl Hne. unfold find_owned. rewrite Hl. simpl. by rewrite bool_decide_eq_false_2.
Qed.

Lemma find_owned_Some st gid uid goal :
  find_owned st gid uid = Some goal ->
  goals st !! gid = Some goal /\ userId goal = Some uid.
Proof.
  unfold find_owned. destruct (goals st !! gid) as [g|]; [|done]. simpl.
  case_bool_decide as Hu; [|done]. intros E; by inversion E; subst.
Qed.

(** Every answer of the replace handler. *)
Lemma replace_fields_cases st uid goalId updates oids :
  (exists status msg, replace_fields st uid goalId updates oids = (JsonError status msg, st))
  \/ exists gid goal patch,
       find_owned st gid uid = Some goal
       /\ cast_update oids updates = Some patch
       /\ replace_fields st uid goalId updates oids
          = (JsonGoal (gid, apply_patch patch goal),
             set_goals st (<[gid := apply_patch patch goal]> (goals st))).
Proof.
  unfold replace_fields.
  destruct (ObjectId_of_string goalId) as [gid|]; [|left; eauto].
  destruct (cast_update oids updates) as [patch|]; [|left; eauto].
  destruct (find_owned st gid uid) as [goal|] eqn:Hf; [|left; eauto].
  right. by exists gid, goal, patch.
Qed.


Lemma delete_goal_cases st uid goalId :
  (exists status msg, delete_goal st uid goalId = (JsonError status msg, st))
  \/ exists gid goal,
       find_owned st gid uid = Some goal
       /\ delete_goal st uid goalId
          = (JsonMessage "Goal deleted successfully", set_goals st (delete gid (goals st))).
Proof.
  unfold delete_goal.
  destruct (ObjectId_of_string goalId) as [gid|]; [|left; eauto].
  destruct (find_owned st gid uid) as [goal|] eqn:Hf; [|left; eauto].
  right. by exists gid, goal.
Qed.

(** The handlers that scope their query by [userId] neither return nor
    change a Goal of another owner. *)
Lemma scoped_handlers_keep_to_owner st uid k g :
  goals st !! k = Some g -> userId g <> Some uid ->
  (~ returns_goal (list_goals st uid).1 k /\ (list_goals st uid).2 = st)
  /\ (forall goalId,
        ~ returns_goal (delete_goal st uid goalId).1 k
        /\ goals (delete_goal st uid goalId).2 !! k = Some g)
  /\ (forall goalId updates oids,
        ~ returns_goal (replace_fields st uid goalId updates oids).1 k
        /\ goals (replace_fields st uid goalId updates oids).2 !! k = Some g)
  /\ (forall body today now oids gen,
        ~ returns_goal (create st uid body today now oids gen).1 k
        /\ goals (create st uid body today now oids gen).2 !! k = Some g).
Proof.
  intros Hk Hne. repeat split.
  - simpl. intros ([k' g'] & Hin & Hk'). simpl in Hk'. subst k'.
    apply list_elem_of_filter in Hin as [Hu Hin]. simpl in Hu.
    apply elem_of_map_to_list in Hin. congruence.
  - destruct (delete_goal_cases st uid goalId)
      as [(status & msg & E)|(gid & goal & Hf & E)]; rewrite E; simpl; tauto.
  - destruct (delete_goal_cases st uid goalId)
      as [(status & msg & E)|(gid & goal & Hf & E)]; rewrite E; simpl; [done|].
    apply find_owned_Some in Hf as [Hl Hu].
    rewrite lookup_delete_ne; [done|]. intros ->. congruence.
  - destruct (replace_fields_cases st uid goalId updates oids)
      as [(status & msg & E)|(gid & goal & patch & Hf & Hc & E)];
      rewrite E; simpl; [tauto|].
    apply find_owned_Some in Hf as [Hl Hu]. intros ->. congruence.
  - destruct (replace_fields_cases st uid goalId updates oids)
      as [(status & msg & E)|(gid & goal & patch & Hf & Hc & E)];
      rewrite E; simpl; [done|].
    apply find_owned_Some in Hf as [Hl Hu].
    rewrite lookup_insert_ne; [done|]. intros ->. congruence.
  - destruct (create_cases st uid body today now oids gen)
      as [E|(a & r & goal & _ & _ & _ & Hfree & E)]; rewrite E; simpl; [tauto|].
    intros <-. congruence.
  - destruct (create_cases st uid body today now oids gen)
      as [E|(a & r & goal & _ & _ & _ & Hfree & E)]; rewrite E; simpl; [done|].
    rewrite lookup_insert_ne; [done|]. intros <-. congruence.
Qed.


(** What was put in the OTP table under an address is what is found
    there. *)
Lemma otp_get_set e d s : otp_get (otp_set e d s) e = Some (Some d).
Proof.
  unfold otp_get, otp_set. destruct (String.eqb e "__proto__") eqn:E; simpl.
  - done.
  - by rewrite lookup_insert_eq.
Qed.

Lemma otp_set_twice e d d' s : otp_set e d' (otp_set e d s) = otp_set e d' s.
Proof.
  unfold otp_set. destruct (String.eqb e "__proto__"); simpl; [done|].
  by rewrite insert_insert_eq.
Qed.

(** An expired entry of the OTP table ends the reset before the users are
    touched. *)
Lemma reset_password_expired_entry st e submitted newPassword now d :
  otp_get (otpStore st) e = Some (Some d) -> expires d < now ->
  reset_password st e submitted newPassword now
  = (JsonError 400 "OTP has expired", set_otpStore st (otp_delete e (otpStore st))).
Proof.
  intros Hd Hlt. unfold reset_password. rewrite Hd. simpl.
  by rewrite (proj2 (Z.ltb_lt _ _) Hlt).
Qed.

End ServiceFacts.

Section ServiceClaims.
Context `{rt : JSRuntime}.

(** C3.  The toggle handler loads the Goal by [goalId] alone: a caller who
    does not own the Goal (a Goal as Create stores it, which validates)
    gets it back and changes it, which the ownership invariant forbids. *)
Theorem toggle_task_ignores_owner st uid goalId taskId gid tid goal slots i :
  ObjectId_of_string goalId = Some gid -> goals st !! gid = Some goal ->
  userId goal <> Some uid ->
  roadmap goal = Some slots -> required_ok goal = true ->
  ObjectId_of_string taskId = Some tid -> roadmap_id slots tid = Some i ->
  exists goal',
    toggle_task st uid goalId taskId
    = (JsonGoal (gid, goal'), set_goals st (<[gid := goal']> (goals st)))
    /\ userId goal' = userId goal
    /\ goal' <> goal.
Proof.
  intros Hg Hl _ Hr Hv Ht Hi. eexists. split; [by eapply toggle_task_found|].
  split; [done|].
  destruct (roadmap_id_lookup _ _ _ Hi) as (e & He & _).
  intros Heq. apply (f_equal roadmap) in Heq. simpl in Heq. rewrite Hr in Heq.
  injection Heq as Heq.
  apply (f_equal (fun l => l !! i)) in Heq.
  rewrite list_lookup_alter_eq, He in Heq. simpl in Heq.
  inversion Heq as [Hsame]. by apply toggle_completed_changes in Hsame.
Qed.

(** C5, as amended.  ToggleTask is its own inverse on an entry whose
    [completed] is a boolean: two calls in a row on a Goal and an entry that
    exist address the same entry and leave its [completed], and the whole
    state, as they were.  Both calls answer with the Goal when the stored
    Goal validates, and both fail and change nothing when it does not.  In
    general the entry ends with the boolean reading of the [completed] it
    started with, so on a Goal that validates an entry stored with [null]
    ends with [false]. *)
Theorem toggle_task_twice st uid goalId taskId gid tid goal slots i e :
  ObjectId_of_string goalId = Some gid -> goals st !! gid = Some goal ->
  roadmap goal = Some slots ->
  ObjectId_of_string taskId = Some tid -> roadmap_id slots tid = Some i ->
  slots !! i = Some (Some e) ->
  exists resp1 st1 resp2 st2 g2 e2,
    toggle_task st uid goalId taskId = (resp1, st1)
    /\ toggle_task st1 uid goalId taskId = (resp2, st2)
    /\ goals st2 !! gid = Some g2
    /\ entries g2 !! i = Some (Some e2)
    /\ default false (completed e2) = default false (completed e)
    /\ (forall b, completed e = Some b -> completed e2 = completed e /\ st2 = st)
    /\ (required_ok goal = true ->
        (exists g1, resp1 = JsonGoal (gid, g1))
        /\ resp2 = JsonGoal (gid, g2)
        /\ completed e2 = Some (default false (completed e)))
    /\ (required_ok goal = false ->
        resp1 = JsonError 500 "Failed to update task" /\ resp2 = resp1 /\ st2 = st).
Proof.
  intros Hg Hl Hr Ht Hi He.
  destruct (required_ok goal) eqn:Hv.
  - set (g1 := set_roadmap_of goal (alter (fmap toggle_completed) i slots)).
    set (st1 := set_goals st (<[gid := g1]> (goals st))).
    assert (H1 : toggle_task st uid goalId taskId = (JsonGoal (gid, g1), st1))
      by by eapply toggle_task_found.
    assert (Hl1 : goals st1 !! gid = Some g1) by apply lookup_insert_eq.
    assert (Hi1 : roadmap_id (alter (fmap toggle_completed) i slots) tid = Some i)
      by by rewrite roadmap_id_toggle.
    pose proof (toggle_task_found st1 uid goalId taskId gid tid g1 _ i
                  Hg Hl1 eq_refl Hv Ht Hi1) as H2.
    destruct (toggle_completed_twice e) as [Hc Hid].
    eexists _, st1, _, _, _, (toggle_completed (toggle_completed e)).
    split; [exact H1|]. split; [exact H2|]. split; [apply lookup_insert_eq|].
    split; [|split; [|split; [|split]]].
    + unfold entries. simpl. by rewrite !list_lookup_alter_eq, He.
    + by rewrite Hc.
    + intros b Hb. split; [by rewrite Hc, Hb|].
      assert (Hroad : alter (fmap toggle_completed) i
                        (alter (fmap toggle_completed) i slots) = slots).
      { rewrite list_alter_alter_eq. apply (alter_fixed _ _ _ (Some e) He).
        simpl. f_equal. by apply (Hid b). }
      rewrite Hroad. unfold st1. rewrite set_goals_twice. simpl.
      rewrite insert_insert_eq.
      replace (set_roadmap_of g1 slots) with goal
        by (destruct goal; simpl in *; by subst).
      rewrite insert_id by done. apply set_goals_same.
    + intros _. split; [by exists g1|]. split; [done|exact Hc].
    + done.
  - pose proof (toggle_task_invalid st uid goalId taskId gid tid goal slots i
                  Hg Hl Hr Hv Ht Hi) as H1.
    eexists _, st, _, st, goal, e.
    split; [exact H1|]. split; [exact H1|]. split; [done|].
    split; [unfold entries; by rewrite Hr|]. split; [done|].
    split; [done|]. split; [done|]. done.
Qed.



(** C9.  A reset-password call that finds the stored expiry time in the
    past answers 400 "OTP has expired" and leaves every user record, hence
    every stored password, as it was. *)
Theorem reset_password_after_expiry st e submitted newPassword now d :
  otp_get (otpStore st) e = Some (Some d) -> expires d < now ->
  exists st',
    reset_password st e submitted newPassword now
    = (JsonError 400 "OTP has expired", st')
    /\ users st' = users st
    /\ goals st' = goals st
    /\ own (otpStore st') !! e = None.
Proof.
  intros Hd Hlt. eexists. split; [by eapply reset_password_expired_entry|].
  simpl. split; [done|]. split; [done|]. apply lookup_delete_eq.
Qed.

(** The same for an OTP that was issued more than ten minutes before the
    reset call. *)
Lemma reset_password_ten_minutes_late st e code issued mail_ok submitted newPassword now :
  is_Some (find_user (users st) e) ->
  issued + 10 * 60 * 1000 < now ->
  exists resp st1 st2,
    forgot_password st e code issued mail_ok = (resp, st1)
    /\ reset_password st1 e submitted newPassword now
       = (JsonError 400 "OTP has expired", st2)
    /\ users st2 = users st.
Proof.
  intros [u Hu] Hlate. unfold forgot_password. rewrite Hu.
  set (st1 := set_otpStore st _).
  assert (Hd : otp_get (otpStore st1) e
               = Some (Some {| otp := code; expires := issued + 10 * 60 * 1000 |}))
    by apply otp_get_set.
  pose proof (reset_password_expired_entry st1 e submitted newPassword now _ Hd Hlate) as Hr.
  destruct mail_ok; eexists _, st1, _; (split; [done|]); by split; [exact Hr|].
Qed.

End ServiceClaims.

(** ** The handlers on the sample requests *)

Section Runs.
Import Sample.
Local Existing Instance Reference.runtime.

Lemma parse_two_days : JSON_parse (strip_fences two_days_text) = Some two_days.
Proof. vm_compute. reflexivity. Qed.

Lemma create_two_days :
  create empty alice body today now oids (fun _ => Some two_days_text)
  = (JsonGoal (3841%N, alice_goal), with_goal).
Proof. vm_compute. reflexivity. Qed.

Lemma goal_hex_id : ObjectId_of_string goal_hex = Some 3841%N.
Proof. vm_compute. reflexivity. Qed.

Lemma task_hex_id : ObjectId_of_string task_hex = Some 3842%N.
Proof. vm_compute. reflexivity. Qed.

Lemma with_goal_lookup : goals with_goal !! 3841%N = Some alice_goal.
Proof. vm_compute. reflexivity. Qed.

Lemma alice_goal_not_bobs : userId alice_goal <> Some bob.
Proof. discriminate. Qed.

(** C1 on the two-day plan: both entries are kept and start pending. *)
Lemma create_roadmap_follows_response_run :
  well_formed two_days = true
  /\ valid_body body = true
  /\ exists goal,
       create empty alice body today now oids (fun _ => Some two_days_text)
       = (JsonGoal (oids O, goal), set_goals empty (<[oids O := goal]> (goals empty)))
       /\ exists slots,
            roadmap goal = Some slots
            /\ length slots = 2%nat
            /\ Forall (fun s => exists e, s = Some e /\ completed e = Some false) slots.
Proof.
  split; [reflexivity|]. split; [vm_compute; reflexivity|].
  destruct (create_roadmap_follows_response empty alice body today now oids
              (fun _ => Some two_days_text) two_days_text two_days
              eq_refl parse_two_days eq_refl) as [Hkept Hdone].
  destruct Hdone as [goal Hgoal]; [vm_compute; reflexivity|reflexivity|].
  exists goal. split; [exact Hgoal|].
  destruct (Hkept _ _ Hgoal) as (_ & slots & Hslots & Hlen & Hpending).
  exists slots. by split.
Defined.

(** C2: the answer [42] is a JSON text and not an object, and Create
    persists a Goal with an empty roadmap for it. *)
Lemma create_persists_for_non_object :
  JSON_parse (strip_fences number_text) = Some (JNum 42)
  /\ well_formed (JNum 42) = false
  /\ create empty alice body today now oids (fun _ => Some number_text)
     = (JsonGoal (3841%N, created None []),
        set_goals empty (<[3841%N := created None []]> ∅))
  /\ goals empty !! 3841%N = None
  /\ JsonGoal (3841%N, created None []) <> GenerationFailure.
Proof. repeat split; try (vm_compute; reflexivity). discriminate. Qed.

(** C2 as amended: a call that errors, a text that is not JSON and an
    answer whose roadmap is a number fail and store nothing; the answer
    [42] is accepted. *)
Lemma create_generation_failure_run :
  JSON_parse (strip_fences "Sorry, no plan today.") = None
  /\ create empty alice body today now oids (fun _ => None) = (GenerationFailure, empty)
  /\ create empty alice body today now oids (fun _ => Some "Sorry, no plan today.")
     = (GenerationFailure, empty)
  /\ create empty alice body today now oids (fun _ => Some seven_text)
     = (GenerationFailure, empty)
  /\ exists goal,
       create empty alice body today now oids (fun _ => Some number_text)
       = (JsonGoal (oids O, goal), set_goals empty (<[oids O := goal]> (goals empty)))
       /\ adjustmentMessage goal = None /\ roadmap goal = Some [].
Proof.
  assert (Hp : JSON_parse (strip_fences "Sorry, no plan today.") = None)
    by (vm_compute; reflexivity).
  assert (Hs : JSON_parse (strip_fences seven_text) = Some (JObj [("roadmap", JNum 7)]))
    by (vm_compute; reflexivity).
  assert (Hn : JSON_parse (strip_fences number_text) = Some (JNum 42))
    by (vm_compute; reflexivity).
  split; [exact Hp|]. split; [|split; [|split]].
  - apply (create_generation_failure empty alice body today now oids (fun _ => None)).
    left. reflexivity.
  - apply (create_generation_failure empty alice body today now oids
             (fun _ => Some "Sorry, no plan today.")).
    right. exists "Sorry, no plan today.". split; [reflexivity|left; exact Hp].
  - apply (create_generation_failure empty alice body today now oids
             (fun _ => Some seven_text)).
    right. exists seven_text. split; [reflexivity|]. right. right.
    exists (JObj [("roadmap", JNum 7)]), None, (Some (JNum 7)).
    split; [exact Hs|]. split; [reflexivity|]. split; [reflexivity|].
    right. reflexivity.
  - apply (proj2 (proj2 (create_generation_failure empty alice body today now oids
                           (fun _ => Some number_text))) number_text (JNum 42)
             eq_refl Hn eq_refl eq_refl); [vm_compute; reflexivity|reflexivity].
Defined.

(** C3: Bob toggles the first task of Alice's goal. *)
Lemma toggle_task_ignores_owner_run :
  goals with_goal !! 3841%N = Some alice_goal
  /\ userId alice_goal = Some alice
  /\ userId alice_goal <> Some bob
  /\ exists goal',
       toggle_task with_goal bob goal_hex task_hex
       = (JsonGoal (3841%N, goal'), set_goals with_goal (<[3841%N := goal']> (goals with_goal)))
       /\ userId goal' = userId alice_goal
       /\ goal' <> alice_goal.
Proof.
  split; [exact with_goal_lookup|]. split; [reflexivity|].
  split; [exact alice_goal_not_bobs|].
  apply (toggle_task_ignores_owner with_goal bob goal_hex task_hex 3841%N 3842%N
           alice_goal _ O goal_hex_id with_goal_lookup alice_goal_not_bobs
           eq_refl eq_refl task_hex_id).
  vm_compute. reflexivity.
Defined.

(** C3, evaluated: the answer to Bob and the state he leaves. *)
Lemma toggle_task_by_bob :
  toggle_task with_goal bob goal_hex task_hex
  = (JsonGoal (3841%N, set_roadmap_of alice_goal
                         (Some (toggle_completed first_day) :: drop 1 (entries alice_goal))),
     set_goals with_goal
       (<[3841%N := set_roadmap_of alice_goal
                      (Some (toggle_completed first_day) :: drop 1 (entries alice_goal))]> ∅)).
Proof. vm_compute. reflexivity. Qed.

(** C4: a plan of 366 days for a deadline ten years away is persisted
    whole. *)
Lemma create_persists_366_days :
  match (create empty alice far_body today now oids
           (fun _ => Some (long_plan_text 366))).1 with
  | JsonGoal doc => length (entries doc.2) = 366%nat
  | _ => False
  end
  /\ ~ (366 <= 365)%nat.
Proof. split; [vm_compute; reflexivity|lia]. Qed.

(** C4 as amended, on the two-day plan. *)
Lemma create_keeps_every_entry_run :
  occurs_in rule_365 (build_prompt today body)
  /\ exists slots, roadmap alice_goal = Some slots /\ length slots = 2%nat.
Proof.
  destruct (create_keeps_every_entry empty alice body today now oids
              (fun _ => Some two_days_text) two_days_text two_days
              (returned_roadmap two_days)) as [Hrule Hkeep].
  split; [exact Hrule|].
  exact (Hkeep eq_refl parse_two_days eq_refl _ _ create_two_days).
Defined.

(** C5 as amended: Alice toggles the first task twice. *)
Lemma toggle_task_twice_run :
  exists g1 st1 g2,
    toggle_task with_goal alice goal_hex task_hex = (JsonGoal (3841%N, g1), st1)
    /\ toggle_task st1 alice goal_hex task_hex = (JsonGoal (3841%N, g2), with_goal)
    /\ exists e2, entries g2 !! O = Some (Some e2) /\ completed e2 = Some false.
Proof.
  destruct (toggle_task_twice with_goal alice goal_hex task_hex 3841%N 3842%N
              alice_goal _ O first_day goal_hex_id with_goal_lookup eq_refl task_hex_id
              eq_refl eq_refl)
    as (resp1 & st1 & resp2 & st2 & g2 & e2 & H1 & H2 & _ & He2 & _ & Hback & Hvalid & _).
  destruct (Hback false eq_refl) as [Hc ->].
  destruct (Hvalid eq_refl) as ([g1 ->] & -> & _).
  exists g1, st1, g2. split; [exact H1|]. split; [exact H2|].
  exists e2. by split.
Defined.

(** C5 as amended, on a Goal whose title was replaced by the empty
    string: both calls fail and the entry stays as it was. *)
Lemma toggle_task_twice_blank_title :
  replace_fields with_goal alice goal_hex blank_title oids
  = (JsonGoal (3841%N, blank_goal), with_blank_goal)
  /\ toggle_task with_blank_goal alice goal_hex task_hex
     = (JsonError 500 "Failed to update task", with_blank_goal).
Proof. split; vm_compute; reflexivity. Qed.





(** C8: a fence whose tag is written [JSON] loses its backticks and
    keeps the tag; what is left is no JSON text and Create fails, although
    the answer inside the fence is the object that gives a Goal when the
    tag is [json]. *)
Lemma generator_keeps_fence_tag :
  strip_fences capitals_text = "JSON" +:+ nl +:+ "{}"
  /\ JSON_parse (strip_fences capitals_text) = None
  /\ create empty alice body today now oids (fun _ => Some capitals_text)
     = (GenerationFailure, empty)
  /\ strip_fences no_fields_text = "{}"
  /\ create empty alice body today now oids (fun _ => Some no_fields_text)
     = (JsonGoal (3841%N, created None []),
        set_goals empty (<[3841%N := created None []]> ∅)).
Proof. repeat split; vm_compute; reflexivity. Qed.

(** C8 as amended: a fenced [{}] gives a Goal with an empty roadmap and no
    message, and so does the same answer without fences. *)
Lemma generator_strips_and_normalizes_run :
  strip_fences no_fields_text = "{}"
  /\ (exists goal,
        create empty alice body today now oids (fun _ => Some no_fields_text)
        = (JsonGoal (oids O, goal), set_goals empty (<[oids O := goal]> (goals empty)))
        /\ roadmap goal = Some [] /\ adjustmentMessage goal = None)
  /\ (exists goal,
        create empty alice body today now oids (fun _ => Some "{}")
        = (JsonGoal (oids O, goal), set_goals empty (<[oids O := goal]> (goals empty)))
        /\ roadmap goal = Some [] /\ adjustmentMessage goal = None).
Proof.
  assert (Hf : Fenced no_fields_text ("" +:+ (nl +:+ "{}" +:+ nl) +:+ ""))
    by (apply (Fenced_answer "" (nl +:+ "{}" +:+ nl) ""); reflexivity).
  assert (Hp : JSON_parse (strip_fences no_fields_text) = Some (JObj []))
    by (vm_compute; reflexivity).
  assert (Hq : JSON_parse (strip_fences "{}") = Some (JObj []))
    by (vm_compute; reflexivity).
  destruct (generator_strips_and_normalizes empty alice body today now oids
              (fun _ => Some no_fields_text) no_fields_text (JObj []) eq_refl Hp)
    as (_ & Hstrip & _ & Hroadmap & Hmessage).
  destruct (generator_strips_and_normalizes empty alice body today now oids
              (fun _ => Some "{}") "{}" (JObj []) eq_refl Hq)
    as (_ & _ & _ & Hroadmap' & Hmessage').
  split; [rewrite (Hstrip _ _ Hf); vm_compute; reflexivity|]. split.
  - destruct (Hroadmap eq_refl) as (_ & Hdone).
    destruct (Hdone None eq_refl) as (goal & Hgoal & Hempty);
      [by eexists|vm_compute; reflexivity|reflexivity|].
    exists goal. split; [exact Hgoal|]. split; [exact Hempty|].
    exact (Hmessage eq_refl _ _ Hgoal).
  - destruct (Hroadmap' eq_refl) as (_ & Hdone).
    destruct (Hdone None eq_refl) as (goal & Hgoal & Hempty);
      [by eexists|vm_compute; reflexivity|reflexivity|].
    exists goal. split; [exact Hgoal|]. split; [exact Hempty|].
    exact (Hmessage' eq_refl _ _ Hgoal).
Defined.

(** C9: Alice's OTP was issued at [now]; the reset comes one millisecond
    after the ten minutes. *)
Lemma reset_password_after_expiry_run :
  (forgot_password empty "alice@example.org" "483920" now true).2 = pending
  /\ exists st',
       reset_password pending "alice@example.org" (Some (JStr "483920")) "new secret"
         (now + 600001)
       = (JsonError 400 "OTP has expired", st')
       /\ users st' = users pending
       /\ own (otpStore st') !! "alice@example.org" = None.
Proof.
  split; [vm_compute; reflexivity|].
  destruct (reset_password_after_expiry pending "alice@example.org"
              (Some (JStr "483920")) "new secret" (now + 600001)
              {| otp := "483920"; expires := now + 600000 |})
    as (st' & Hr & Hu & _ & Ho).
  - vm_compute. reflexivity.
  - vm_compute. reflexivity.
  - exists st'. by split.
Defined.

(** C10: an answer whose message is the empty string. *)
Lemma create_falsy_adjustment_is_null_run :
  exists parsed,
    JSON_parse (strip_fences (falsy_text (quoted ""))) = Some parsed
    /\ get_prop parsed "adjustmentMessage" = Some (Some (JStr ""))
    /\ create empty alice body today now oids (fun _ => Some (falsy_text (quoted "")))
       = (JsonGoal (3841%N, created None [Some first_day]),
          set_goals empty (<[3841%N := created None [Some first_day]]> ∅))
    /\ adjustmentMessage (created None [Some first_day]) = None.
Proof.
  exists (JObj [("adjustmentMessage", JStr "");
                ("roadmap", JArr [JObj [("day", JNum 1); ("task", JStr "Hold the guitar")]])]).
  assert (Hp : JSON_parse (strip_fences (falsy_text (quoted "")))
               = Some (JObj [("adjustmentMessage", JStr "");
                             ("roadmap", JArr [JObj [("day", JNum 1);
                                                     ("task", JStr "Hold the guitar")]])]))
    by (vm_compute; reflexivity).
  assert (Hc : create empty alice body today now oids (fun _ => Some (falsy_text (quoted "")))
               = (JsonGoal (3841%N, created None [Some first_day]),
                  set_goals empty (<[3841%N := created None [Some first_day]]> ∅)))
    by (vm_compute; reflexivity).
  split; [exact Hp|]. split; [reflexivity|]. split; [exact Hc|].
  destruct (create_falsy_adjustment_is_null empty alice body today now oids
              (fun _ => Some (falsy_text (quoted ""))) _ _ (JStr "")
              eq_refl Hp eq_refl eq_refl) as [Hnull _].
  exact (proj2 (Hnull _ _ Hc)).
Defined.

(** C10 for [false] and for [0]. *)
Lemma create_false_or_zero_adjustment :
  create empty alice body today now oids (fun _ => Some (falsy_text "false"))
  = (JsonGoal (3841%N, created None [Some first_day]),
     set_goals empty (<[3841%N := created None [Some first_day]]> ∅))
  /\ create empty alice body today now oids (fun _ => Some (falsy_text "0"))
     = (JsonGoal (3841%N, created None [Some first_day]),
        set_goals empty (<[3841%N := created None [Some first_day]]> ∅)).
Proof. split; vm_compute; reflexivity. Qed.

(** Outside the expected shape: an entry that sets [completed] itself keeps
    what it sets. *)
Lemma create_keeps_supplied_completed :
  JSON_parse (strip_fences done_text)
  = Some (JObj [("roadmap", JArr [JObj [("day", JNum 1); ("task", JStr "Hold the guitar");
                                        ("completed", JBool true)]])])
  /\ expected_entry (JObj [("day", JNum 1); ("task", JStr "Hold the guitar");
                           ("completed", JBool true)]) = false
  /\ List.map (fmap completed)
       (response_roadmap
          (create empty alice body today now oids (fun _ => Some done_text)).1)
     = [Some (Some true)].
Proof. repeat split; vm_compute; reflexivity. Qed.

(** C5: Alice stores an entry with [completed: null] through
    [PUT /api/goals/:id]; the first toggle completes it and the second
    leaves it [false], not [null]. *)
Lemma toggle_task_twice_from_null :
  let st0 := (replace_fields with_goal alice goal_hex null_completed oids).2 in
  let r1 := toggle_task st0 alice goal_hex task_hex in
  let r2 := toggle_task r1.2 alice goal_hex task_hex in
  (entries <$> goals st0 !! 3841%N)
  = Some [Some {| entry_id := Some 3842%N; day := Some 1;
                  task := Some "Hold the guitar"; completed := None |}]
  /\ List.map (fmap completed) (response_roadmap r1.1) = [Some (Some true)]
  /\ List.map (fmap completed) (response_roadmap r2.1) = [Some (Some false)]
  /\ (List.map (fmap completed) <$> (entries <$> goals r2.2 !! 3841%N))
     = Some [Some (Some false)]
  /\ Some false <> (None : option bool).
Proof. repeat split; try (vm_compute; reflexivity). discriminate. Qed.

(** The same entry stored by Create, from an answer that sets
    [completed] to [null]. *)
Lemma create_keeps_null_completed :
  List.map (fmap completed)
    (response_roadmap
       (create empty alice body today now oids (fun _ => Some null_text)).1)
  = [Some None].
Proof. vm_compute. reflexivity. Qed.

End Runs.

(** ** More on the Goal Service *)

Section ServiceExtras.
Context `{rt : JSRuntime}.

(** X1.  List answers with exactly the stored Goals of the caller, each once,
    and changes nothing. *)
Theorem list_goals_exact st uid :
  exists docs,
    list_goals st uid = (JsonGoals docs, st)
    /\ NoDup docs
    /\ forall k g, (k, g) ∈ docs <-> goals st !! k = Some g /\ userId g = Some uid.
Proof.
  eexists. split; [reflexivity|]. split.
  - apply NoDup_filter, NoDup_map_to_list.
  - intros k g. rewrite list_elem_of_filter, elem_of_map_to_list. simpl. tauto.
Qed.

(** X2.  Delete by the owner removes that Goal and nothing else; a second Delete
    of the same id answers 404 and changes nothing. *)
Theorem delete_goal_removes_own st uid goalId gid goal :
  ObjectId_of_string goalId = Some gid -> goals st !! gid = Some goal ->
  userId goal = Some uid ->
  exists st',
    delete_goal st uid goalId = (JsonMessage "Goal deleted successfully", st')
    /\ goals st' !! gid = None
    /\ (forall k, k <> gid -> goals st' !! k = goals st !! k)
    /\ users st' = users st /\ otpStore st' = otpStore st
    /\ delete_goal st' uid goalId
       = (JsonError 404 "Goal not found or unauthorized", st').
Proof.
  intros Hg Hl Hu.
  assert (Hf : find_owned st gid uid = Some goal).
  { unfold find_owned. rewrite Hl. simpl. by rewrite bool_decide_eq_true_2. }
  eexists. split; [unfold delete_goal; by rewrite Hg, Hf|].
  simpl. split; [apply lookup_delete_eq|].
  split; [intros k Hk; by apply lookup_delete_ne|].
  split; [done|]. split; [done|].
  unfold delete_goal, find_owned. rewrite Hg. simpl. by rewrite lookup_delete_eq.
Qed.

(** The document that a successful Create inserted. *)
Lemma create_inserted st uid body today now oids gen doc st' :
  create st uid body today now oids gen = (JsonGoal doc, st') ->
  userId doc.2 = Some uid
  /\ goals st !! doc.1 = None
  /\ st' = set_goals st (<[doc.1 := doc.2]> (goals st)).
Proof.
  intros Hc.
  destruct (create_cases st uid body today now oids gen)
    as [E|(a & r & goal & _ & Hnew & _ & Hfree & E)]; rewrite E in Hc; [done|].
  inversion Hc; subst. simpl.
  destruct (new_Goal_inv _ _ _ _ _ _ _ Hnew) as (_ & _ & _ & _ & Hu). by repeat split.
Qed.

(** X3.  A Goal that Create returns belongs to the caller, has a non-empty title
    and the creation time of the request, and is the one document added to
    the collection, under an id that was free. *)
Theorem create_adds_one_owned_goal st uid body today now oids gen doc st' :
  create st uid body today now oids gen = (JsonGoal doc, st') ->
  userId doc.2 = Some uid
  /\ (exists t, title doc.2 = Some t /\ t <> "")
  /\ createdAt doc.2 = Some now
  /\ goals st !! doc.1 = None
  /\ goals st' = <[doc.1 := doc.2]> (goals st)
  /\ size (goals st') = S (size (goals st))
  /\ users st' = users st /\ otpStore st' = otpStore st.
Proof.
  intros Hc.
  destruct (create_cases st uid body today now oids gen)
    as [E|(a & r & goal & _ & Hnew & Hreq & Hfree & E)]; rewrite E in Hc; [done|].
  inversion Hc; subst. simpl.
  destruct (new_Goal_inv _ _ _ _ _ _ _ Hnew) as (_ & _ & _ & _ & Hu).
  split; [done|]. split.
  - unfold required_ok in Hreq. rewrite Hu in Hreq.
    destruct (title goal) as [t|]; [|done]. exists t. split; [done|].
    intros ->. done.
  - split.
    + unfold new_Goal in Hnew.
      destruct (cast_path castString (body_title body)); [|done]. simpl in Hnew.
      destruct (cast_path castString (body_description body)); [|done]. simpl in Hnew.
      destruct (cast_path castDate _); [|done]. simpl in Hnew.
      destruct (cast_path castNumber _); [|done]. simpl in Hnew.
      destruct (castString a); [|done]. simpl in Hnew.
      destruct (cast_roadmap _ r); [|done]. simpl in Hnew. by inversion Hnew.
    + repeat split; try done. by apply map_size_insert_None.
Qed.

(** X4.  Without a title that casts to a non-empty string nothing is created,
    whatever the generator answers: the validation error of [save()] ends
    in the 500 of the [catch] block. *)
Theorem create_requires_title st uid body today now oids gen :
  (forall t, cast_path castString (body_title body) = Some (Some t) -> t = "") ->
  create st uid body today now oids gen = (GenerationFailure, st).
Proof.
  intros Htitle.
  destruct (create_cases st uid body today now oids gen)
    as [E|(a & r & goal & _ & Hnew & Hreq & _ & _)]; [done|].
  destruct (new_Goal_inv _ _ _ _ _ _ _ Hnew) as (Ht & _ & _ & _ & Hu).
  unfold required_ok in Hreq. rewrite Hu in Hreq.
  destruct (title goal) as [t|]; [|done].
  rewrite (Htitle t Ht) in Hreq. done.
Qed.

Lemma cast_entries_lookup oids items es i item :
  cast_entries oids items = Some es -> items !! i = Some item ->
  exists e, es !! i = Some e /\ cast_entry (oids i) item = Some e.
Proof.
  revert oids es i. induction items as [|v items IH]; intros oids es i H Hi; [done|].
  simpl in H.
  destruct (cast_entry (oids O) v) as [e|] eqn:Ee; [|done]. simpl in H.
  destruct (cast_entries _ items) as [es'|] eqn:E; [|done]. simpl in H.
  inversion H; subst. destruct i as [|i]; simpl in *.
  - inversion Hi; subst. by exists e.
  - by apply (IH (fun i => oids (S i)) es' i E Hi).
Qed.

Lemma expected_entry_cast fresh item s :
  expected_entry item = true -> cast_entry fresh item = Some s ->
  exists d t, item_field item "day" = Some (JNum d)
    /\ item_field item "task" = Some (JStr t)
    /\ s = Some (pending_entry fresh d t).
Proof.
  intros Hwf Hc. pose proof (expected_entry_pending fresh item s Hwf Hc) as Hp.
  destruct item as [| | | | |props]; try done. simpl in *.
  unfold cast_subdocument in Hc.
  destruct (obj_get props "day") as [[| |d| | |]|] eqn:Hd; try done.
  destruct (obj_get props "task") as [[| | |t| |]|] eqn:Ht; try done.
  exists d, t. split; [done|]. split; [done|].
  assert (Hid : obj_get props "_id" = None).
  { clear Hc Hd Ht Hp. induction props as [|[k x] props IH]; [done|].
    simpl in Hwf. apply andb_prop in Hwf as [Hk Hrest]. simpl.
    destruct (String.eqb_spec k "_id") as [->|_]; [done|]. by apply IH. }
  rewrite Hid in Hc. simpl in Hc.
  destruct (match obj_get props "completed" with Some x => castBoolean x | None => _ end)
    as [c|]; [|done].
  simpl in Hc. inversion Hc; subst s. simpl in Hp.
  injection Hp as ->. done.
Qed.

(** X5.  For a well-formed answer the roadmap that Create persists is the
    returned sequence, entry by entry and in the same order: the [i]-th entry
    has the day and the task of the [i]-th element, a fresh id, and is
    pending. *)
Theorem create_roadmap_in_order st uid body today now oids gen text parsed doc st' :
  gen (build_prompt today body) = Some text ->
  JSON_parse (strip_fences text) = Some parsed ->
  well_formed parsed = true ->
  create st uid body today now oids gen = (JsonGoal doc, st') ->
  forall i item,
    returned_roadmap parsed !! i = Some item ->
    exists d t,
      item_field item "day" = Some (JNum d)
      /\ item_field item "task" = Some (JStr t)
      /\ entries doc.2 !! i = Some (Some (pending_entry (oids (S i)) d t)).
Proof.
  intros Hg Hp Hwf Hc i item Hi.
  destruct (well_formed_plan _ _ _ _ Hg Hp Hwf) as (a & Hplan & _ & Hitems).
  destruct (create_goal_inv _ _ _ _ _ _ _ _ _ Hc) as (a0 & r0 & goal & Hplan' & Hnew & -> & _).
  rewrite Hplan in Hplan'. inversion Hplan'; subst a0 r0.
  destruct (new_Goal_inv _ _ _ _ _ _ _ Hnew) as (_ & _ & _ & Hr & _). simpl in Hr.
  destruct (cast_entries _ (returned_roadmap parsed)) as [slots|] eqn:Hs; [|done].
  simpl in Hr. injection Hr as Hr.
  destruct (cast_entries_lookup _ _ _ _ _ Hs Hi) as (e & He & Hcast).
  assert (Hitem : expected_entry item = true).
  { rewrite forallb_forall in Hitems. apply Hitems.
    apply list_elem_of_In. by eapply list_elem_of_lookup_2. }
  destruct (expected_entry_cast _ _ _ Hitem Hcast) as (d & t & Hd & Ht & ->).
  exists d, t. split; [done|]. split; [done|].
  unfold entries. simpl. by rewrite <- Hr.
Qed.

(** X7.  After a successful Create, List shows the caller the new Goal beside
    the Goals listed before, and shows every other user what it showed
    before. *)
Theorem create_then_list st uid body today now oids gen doc st' :
  create st uid body today now oids gen = (JsonGoal doc, st') ->
  forall v k g,
    returns_goal (list_goals st' v).1 k /\ goals st' !! k = Some g
    <-> (v = uid /\ k = doc.1 /\ g = doc.2)
        \/ (returns_goal (list_goals st v).1 k /\ goals st !! k = Some g).
Proof.
  intros Hc v k g.
  destruct (create_inserted _ _ _ _ _ _ _ _ _ Hc) as (Hu & Hfree & ->).
  assert (Hgoals : goals (set_goals st (<[doc.1 := doc.2]> (goals st)))
                   = <[doc.1 := doc.2]> (goals st)) by done.
  assert (Hret : forall s, returns_goal (list_goals s v).1 k
                           <-> exists g0, goals s !! k = Some g0 /\ userId g0 = Some v).
  { intros s. simpl. split.
    - intros ([k' g0] & Hin & Hk). simpl in Hk. subst k'.
      apply list_elem_of_filter in Hin as [Hv Hin].
      apply elem_of_map_to_list in Hin. by exists g0.
    - intros (g0 & Hl & Hv). exists (k, g0). split; [|done].
      apply list_elem_of_filter. split; [done|]. by apply elem_of_map_to_list. }
  rewrite !Hret, Hgoals. destruct (decide (k = doc.1)) as [->|Hne].
  - rewrite lookup_insert_eq, Hfree. split.
    + intros [(g0 & Hg0 & Hv) Hg]. left. split; [congruence|]. split; congruence.
    + intros [(-> & _ & ->)|[(g0 & Hg0 & _) _]]; [|done]. split; [by exists doc.2|done].
  - rewrite lookup_insert_ne by done. split.
    + intros H. by right.
    + intros [(_ & Hk & _)|H]; [done|exact H].
Qed.

(** X8.  Delete of the Goal that Create returned, by its creator, gives back the
    collection that was there before the Create. *)
Theorem create_then_delete st uid body today now oids gen doc st' goalId :
  create st uid body today now oids gen = (JsonGoal doc, st') ->
  ObjectId_of_string goalId = Some doc.1 ->
  delete_goal st' uid goalId = (JsonMessage "Goal deleted successfully", st).
Proof.
  intros Hc Hid.
  destruct (create_inserted _ _ _ _ _ _ _ _ _ Hc) as (Hu & Hfree & ->).
  unfold delete_goal, find_owned. rewrite Hid. simpl. rewrite lookup_insert_eq. simpl.
  rewrite bool_decide_eq_true_2 by done. f_equal.
  rewrite delete_insert_eq, delete_id by done. by destruct st.
Qed.

(** X9.  A toggle on a Goal that validates changes one field of one entry of
    one Goal: the roadmap keeps its length and every other slot, the entry
    keeps its id, day and task, the Goal keeps its other fields, and the
    rest of the state is as it was. *)
Theorem toggle_task_frame st uid goalId taskId gid tid goal slots i e :
  ObjectId_of_string goalId = Some gid -> goals st !! gid = Some goal ->
  roadmap goal = Some slots -> required_ok goal = true ->
  ObjectId_of_string taskId = Some tid -> roadmap_id slots tid = Some i ->
  slots !! i = Some (Some e) ->
  exists goal' st',
    toggle_task st uid goalId taskId = (JsonGoal (gid, goal'), st')
    /\ goals st' !! gid = Some goal'
    /\ (forall k, k <> gid -> goals st' !! k = goals st !! k)
    /\ users st' = users st /\ otpStore st' = otpStore st
    /\ set_roadmap_of goal' slots = goal
    /\ length (entries goal') = length slots
    /\ (forall j, j <> i -> entries goal' !! j = slots !! j)
    /\ entries goal' !! i
       = Some (Some {| entry_id := entry_id e; day := day e; task := task e;
                       completed := Some (negb (default false (completed e))) |}).
Proof.
  intros Hg Hl Hr Hv Ht Hi He. eexists _, _.
  split; [by eapply toggle_task_found|]. unfold entries. simpl.
  split; [apply lookup_insert_eq|].
  split; [intros k Hk; by apply lookup_insert_ne|].
  split; [done|]. split; [done|].
  split; [destruct goal; simpl in *; by subst|].
  split; [apply length_alter|].
  split; [intros j Hj; by apply list_lookup_alter_ne|].
  by rewrite list_lookup_alter_eq, He.
Qed.

Lemma roadmap_id_None slots id :
  roadmap_id slots id = None <-> forall e, Some e ∈ slots -> entry_id e <> Some id.
Proof.
  induction slots as [|s slots IH]; simpl.
  - split; [intros _ e He; by apply elem_of_nil in He|done].
  - case_bool_decide as Hid.
    + split; [done|]. intros H. exfalso.
      destruct s as [e|]; [|done]. apply (H e); [left|done].
    + destruct (roadmap_id slots id) as [j|] eqn:E; simpl.
      * split; [done|]. intros H. exfalso.
        assert (Hall : forall e0, Some e0 ∈ slots -> entry_id e0 <> Some id)
          by (intros e0 He0; apply H; by right).
        apply IH in Hall. done.
      * split; [|done]. intros _ e0 He0.
        apply elem_of_cons in He0 as [<-|He0]; [done|]. by apply IH.
Qed.

(** The entry that a toggle addresses is the first one with the given id:
    no entry before it has that id. *)
Lemma roadmap_id_first slots id i :
  roadmap_id slots id = Some i ->
  forall j e, (j < i)%nat -> slots !! j = Some (Some e) -> entry_id e <> Some id.
Proof.
  revert i. induction slots as [|s0 slots IH]; intros i H j e Hj He; [done|].
  simpl in H. case_bool_decide as Hid.
  - inversion H; subst. lia.
  - destruct (roadmap_id slots id) as [i'|] eqn:E; [|done]. simpl in H.
    inversion H; subst. destruct j as [|j]; simpl in He.
    + by inversion He; subst.
    + eapply (IH i' eq_refl j); [lia|done].
Qed.

(** X10.  The toggles that change nothing.  For a Goal that is not stored the
    answer is 404; for a stored Goal with a roadmap in which no entry has
    the id (or when the id is no ObjectId) it is 404 as well; for a stored
    Goal whose roadmap is [null], and for an entry found in a Goal that
    does not validate, it is the 500 of the [catch] block. *)
Theorem toggle_task_not_found st uid goalId taskId gid :
  ObjectId_of_string goalId = Some gid ->
  (goals st !! gid = None ->
   toggle_task st uid goalId taskId = (JsonError 404 "Goal not found", st))
  /\ (forall goal slots,
        goals st !! gid = Some goal -> roadmap goal = Some slots ->
        (forall tid e, ObjectId_of_string taskId = Some tid ->
                       Some e ∈ slots -> entry_id e <> Some tid) ->
        toggle_task st uid goalId taskId = (JsonError 404 "Task not found", st))
  /\ (forall goal,
        goals st !! gid = Some goal -> roadmap goal = None ->
        toggle_task st uid goalId taskId = (JsonError 500 "Failed to update task", st))
  /\ (forall goal slots tid i,
        goals st !! gid = Some goal -> roadmap goal = Some slots ->
        ObjectId_of_string taskId = Some tid -> roadmap_id slots tid = Some i ->
        required_ok goal = false ->
        toggle_task st uid goalId taskId = (JsonError 500 "Failed to update task", st)).
Proof.
  intros Hg. split; [|split; [|split]].
  - unfold toggle_task. rewrite Hg. by intros ->.
  - intros goal slots Hl Hr Hnone. unfold toggle_task. rewrite Hg, Hl, Hr.
    destruct (ObjectId_of_string taskId) as [tid|]; simpl; [|done].
    assert (Hid : roadmap_id slots tid = None)
      by (apply roadmap_id_None; intros e He; by apply (Hnone tid)).
    by rewrite Hid.
  - intros goal Hl Hr. unfold toggle_task. by rewrite Hg, Hl, Hr.
  - intros goal slots tid i Hl Hr Ht Hi Hv. by eapply toggle_task_invalid.
Qed.

(** On a Goal of another owner Delete and every update that casts answer
    404 and change nothing. *)
Lemma other_owner_keeps_out st uid goalId gid goal :
  ObjectId_of_string goalId = Some gid -> goals st !! gid = Some goal ->
  userId goal <> Some uid ->
  delete_goal st uid goalId = (JsonError 404 "Goal not found or unauthorized", st)
  /\ (forall updates oids,
        is_Some (cast_update oids updates) ->
        replace_fields st uid goalId updates oids
        = (JsonError 404 "Goal not found or unauthorized", st)).
Proof.
  intros Hg Hl Hne. pose proof (find_owned_other st gid uid goal Hl Hne) as Hf.
  unfold delete_goal, replace_fields. rewrite Hg, Hf. split; [done|].
  by intros updates oids [patch ->].
Qed.

Lemma find_owned_own st gid uid goal :
  goals st !! gid = Some goal -> userId goal = Some uid ->
  find_owned st gid uid = Some goal.
Proof.
  intros Hl Hu. unfold find_owned. rewrite Hl. simpl. by rewrite bool_decide_eq_true_2.
Qed.

(** X11.  The body [{ roadmap: [...] }] sent by the owner replaces the roadmap by
    the cast of the elements, position by position (no renumbering, no
    deduplication), and leaves every other field of the Goal and every other
    Goal as they were. *)
Theorem replace_fields_roadmap_only st uid goalId gid goal items oids entries :
  ObjectId_of_string goalId = Some gid -> goals st !! gid = Some goal ->
  userId goal = Some uid ->
  cast_entries oids items = Some entries ->
  replace_fields st uid goalId (roadmap_update (JArr items)) oids
  = (JsonGoal (gid, set_roadmap_of goal entries),
     set_goals st (<[gid := set_roadmap_of goal entries]> (goals st)))
  /\ length entries = length items
  /\ (forall i item, items !! i = Some item ->
        exists e, entries !! i = Some e /\ cast_entry (oids i) item = Some e).
Proof.
  intros Hg Hl Hu Hcast. split; [|split].
  - unfold replace_fields, cast_update, roadmap_update. simpl.
    rewrite Hg, Hcast. simpl. rewrite (find_owned_own _ _ _ _ Hl Hu).
    by destruct goal.
  - by eapply cast_entries_length.
  - intros i item Hi. by eapply cast_entries_lookup.
Qed.

(** An element that brings its own [_id] and [completed] keeps them. *)
Lemma cast_entry_keeps_supplied fresh props id b e :
  obj_get props "_id" = Some (JStr id) -> obj_get props "completed" = Some (JBool b) ->
  cast_entry fresh (JObj props) = Some (Some e) ->
  ObjectId_of_string id = entry_id e /\ completed e = Some b.
Proof.
  intros Hid Hc H. simpl in H. unfold cast_subdocument in H.
  rewrite Hid, Hc in H. simpl in H.
  destruct (ObjectId_of_string id) as [o|]; [|done]. simpl in H.
  destruct (cast_path castNumber _); [|done]. simpl in H.
  destruct (cast_path castString _); [|done]. simpl in H.
  by inversion H.
Qed.

(** X12.  The body [{}] sent by the owner answers with the Goal and changes
    nothing. *)
Theorem replace_fields_no_updates st uid goalId gid goal oids :
  ObjectId_of_string goalId = Some gid -> goals st !! gid = Some goal ->
  userId goal = Some uid ->
  replace_fields st uid goalId no_updates oids = (JsonGoal (gid, goal), st).
Proof.
  intros Hg Hl Hu. unfold replace_fields, cast_update, no_updates. simpl.
  rewrite Hg, (find_owned_own _ _ _ _ Hl Hu).
  assert (Hsame : forall p, p = {| patch_userId := None; patch_title := None;
                                   patch_description := None; patch_deadline := None;
                                   patch_hoursPerDay := None;
                                   patch_adjustmentMessage := None;
                                   patch_roadmap := None; patch_createdAt := None |} ->
                            apply_patch p goal = goal)
    by (intros p ->; by destruct goal).
  rewrite (Hsame _ eq_refl), insert_id by done. by rewrite set_goals_same.
Qed.

Lemma cast_update_userId oids updates patch :
  cast_update oids updates = Some patch ->
  cast_set castObjectId (set_userId updates) = Some (patch_userId patch).
Proof.
  unfold cast_update. intros H.
  destruct (cast_set castObjectId _); [|done]. simpl in H.
  destruct (cast_set castString (set_title updates)); [|done]. simpl in H.
  destruct (cast_set castString (set_description updates)); [|done]. simpl in H.
  destruct (cast_set castDate (set_deadline updates)); [|done]. simpl in H.
  destruct (cast_set castNumber _); [|done]. simpl in H.
  destruct (cast_set castString (set_adjustmentMessage updates)); [|done]. simpl in H.
  destruct (match set_roadmap updates with Some v => _ | None => _ end); [|done].
  simpl in H.
  destruct (cast_set castDate (set_createdAt updates)); [|done]. simpl in H.
  by inversion H.
Qed.

(** X13.  The owner can give a Goal away: a body with a [userId] that is not the
    caller's makes the update succeed, after which the Goal has that owner
    (or none, for [null]), the caller no longer sees it in List and gets 404
    from Delete and from a further update. *)
Theorem replace_fields_hands_over st uid goalId gid goal updates oids v owner :
  ObjectId_of_string goalId = Some gid -> goals st !! gid = Some goal ->
  userId goal = Some uid ->
  is_Some (cast_update oids updates) ->
  set_userId updates = Some v -> castObjectId v = Some owner -> owner <> Some uid ->
  exists goal' st',
    replace_fields st uid goalId updates oids = (JsonGoal (gid, goal'), st')
    /\ goals st' !! gid = Some goal'
    /\ userId goal' = owner
    /\ ~ returns_goal (list_goals st' uid).1 gid
    /\ delete_goal st' uid goalId
       = (JsonError 404 "Goal not found or unauthorized", st')
    /\ (forall updates' oids',
          is_Some (cast_update oids' updates') ->
          replace_fields st' uid goalId updates' oids'
          = (JsonError 404 "Goal not found or unauthorized", st')).
Proof.
  intros Hg Hl Hu [patch Hpatch] Hv Hcast Hother.
  pose proof (cast_update_userId _ _ _ Hpatch) as Hpu.
  rewrite Hv in Hpu. simpl in Hpu. rewrite Hcast in Hpu. simpl in Hpu.
  injection Hpu as Hpu.
  set (goal' := apply_patch patch goal).
  set (st' := set_goals st (<[gid := goal']> (goals st))).
  assert (Hl' : goals st' !! gid = Some goal') by apply lookup_insert_eq.
  assert (Hu' : userId goal' = owner) by (simpl; by rewrite <- Hpu).
  assert (Hne : userId goal' <> Some uid) by by rewrite Hu'.
  exists goal', st'. split.
  { unfold replace_fields. by rewrite Hg, Hpatch, (find_owned_own _ _ _ _ Hl Hu). }
  split; [done|]. split; [done|].
  destruct (scoped_handlers_keep_to_owner st' uid gid goal' Hl' Hne)
    as ((Hlist & _) & _ & _ & _).
  split; [done|].
  destruct (other_owner_keeps_out st' uid goalId gid goal' Hg Hl' Hne) as [Hd Hr].
  by split.
Qed.

(** X14.  Only Create adds a Goal and only Delete removes one: a toggle and an
    update keep the set of stored ids, Delete does not add to it and Create
    does not take from it. *)
Theorem handlers_and_stored_ids st uid goalId taskId updates body today now oids gen :
  dom (goals (toggle_task st uid goalId taskId).2) = dom (goals st)
  /\ dom (goals (replace_fields st uid goalId updates oids).2) = dom (goals st)
  /\ dom (goals (delete_goal st uid goalId).2) ⊆ dom (goals st)
  /\ dom (goals st) ⊆ dom (goals (create st uid body today now oids gen).2)
  /\ dom (goals (list_goals st uid).2) = dom (goals st).
Proof.
  split; [|split; [|split; [|split]]].
  - destruct (toggle_task_cases st uid goalId taskId)
      as [(status & msg & E)|(gid & goal & slots & i & Hl & _ & _ & E)];
      rewrite E; simpl; [done|].
    by apply dom_insert_lookup_L.
  - destruct (replace_fields_cases st uid goalId updates oids)
      as [(status & msg & E)|(gid & goal & patch & Hf & Hc & E)]; rewrite E; simpl; [done|].
    apply find_owned_Some in Hf as [Hl _]. by apply dom_insert_lookup_L.
  - destruct (delete_goal_cases st uid goalId)
      as [(status & msg & E)|(gid & goal & Hf & E)]; rewrite E; simpl; [done|].
    rewrite dom_delete_L. apply subseteq_difference_l. done.
  - destruct (create_cases st uid body today now oids gen)
      as [E|(a & r & goal & _ & _ & _ & Hfree & E)]; rewrite E; simpl; [done|].
    rewrite dom_insert_L. apply union_subseteq_r.
  - done.
Qed.

(** X15.  The Goal handlers leave the users and the OTP table alone. *)
Theorem goal_handlers_keep_users st uid goalId taskId updates body today now oids gen :
  let keeps (r : Response * State) :=
    users r.2 = users st /\ otpStore r.2 = otpStore st in
  keeps (create st uid body today now oids gen)
  /\ keeps (list_goals st uid)
  /\ keeps (toggle_task st uid goalId taskId)
  /\ keeps (delete_goal st uid goalId)
  /\ keeps (replace_fields st uid goalId updates oids).
Proof.
  intros keeps. unfold keeps. split; [|split; [|split; [|split]]].
  - destruct (create_cases st uid body today now oids gen)
      as [E|(a & r & goal & _ & _ & _ & Hfree & E)]; by rewrite E.
  - done.
  - destruct (toggle_task_cases st uid goalId taskId)
      as [(status & msg & E)|(gid & goal & slots & i & Hl & _ & _ & E)]; by rewrite E.
  - destruct (delete_goal_cases st uid goalId)
      as [(status & msg & E)|(gid & goal & Hf & E)]; by rewrite E.
  - destruct (replace_fields_cases st uid goalId updates oids)
      as [(status & msg & E)|(gid & goal & patch & Hf & Hc & E)]; by rewrite E.
Qed.

End ServiceExtras.

(** ** More on the OTP flow *)

Section OtpExtras.
Context `{rt : JSRuntime}.

Lemma update_password_none us e h :
  find_user us e = None -> update_password us e h = us.
Proof.
  induction us as [|u us IH]; [done|]. unfold find_user in *. simpl.
  destruct (String.eqb (email u) e); [done|]. intros H. by rewrite IH.
Qed.

(** [findOneAndUpdate] rewrites the first user with the address. *)
Lemma update_password_first us e h u :
  find_user us e = Some u ->
  exists before after,
    us = (before ++ u :: after)%list
    /\ Forall (fun v => email v <> e) before
    /\ email u = e
    /\ update_password us e h
       = (before ++ {| name := name u; email := email u; password := h |} :: after)%list.
Proof.
  induction us as [|v us IH]; [done|]. unfold find_user in *. simpl.
  destruct (String.eqb_spec (email v) e) as [Heq|Hne].
  - intros H. inversion H; subst v. by exists [], us.
  - intros H. destruct (IH H) as (before & after & -> & Hb & He & ->).
    exists (v :: before), after. repeat split; try done. by constructor.
Qed.

Lemma find_user_updated us e h u :
  find_user us e = Some u ->
  find_user (update_password us e h) e
  = Some {| name := name u; email := email u; password := h |}.
Proof.
  induction us as [|v us IH]; [done|]. unfold find_user in *. simpl.
  destruct (String.eqb (email v) e) eqn:E.
  - intros H. inversion H; subst v. simpl. by rewrite E.
  - intros H. simpl. rewrite E. by apply IH.
Qed.

Lemma find_user_update_is_Some us e e' h :
  is_Some (find_user us e') -> is_Some (find_user (update_password us e h) e').
Proof.
  induction us as [|v us IH]; [done|]. unfold find_user in *. simpl.
  destruct (String.eqb (email v) e) eqn:E; simpl.
  - destruct (String.eqb (email v) e'); [eauto|done].
  - destruct (String.eqb (email v) e'); [eauto|]. apply IH.
Qed.

Lemma strict_eq_string_spec x s : strict_eq_string x s = true <-> x = Some (JStr s).
Proof.
  destruct x as [[| | |s'| |]|]; simpl; try (split; [done|intros H; by inversion H]).
  rewrite String.eqb_eq. split; [by intros ->|intros H; by inversion H].
Qed.

(** What [otpStore] inherits is no entry with a code. *)
Lemma inherited_no_entry s e d : inherited s e <> Some (Some d).
Proof.
  unfold inherited. destruct (proto s) as [p|].
  - destruct (String.eqb e "otp"); [by destruct (String.eqb (otp p) "")|].
    destruct (String.eqb e "expires"); [by destruct (expires p =? 0)|].
    by case_bool_decide.
  - by case_bool_decide.
Qed.

(** Nothing is inherited under a plain address. *)
Lemma inherited_plain s e : plain_address e = true -> inherited s e = None.
Proof.
  unfold plain_address, inherited. intros H.
  apply andb_prop in H as [H Hn]. apply andb_prop in H as [H He].
  apply andb_prop in H as [_ Ho].
  apply negb_true_iff in Hn, He, Ho. rewrite Ho, He, Hn. by destruct (proto s).
Qed.

(** An entry found after [otpStore[e] = d] is [d] under [e] or was there
    before. *)
Lemma otp_get_set_inv e d s e' d' :
  otp_get (otp_set e d s) e' = Some (Some d') ->
  (e' = e /\ d' = d) \/ otp_get s e' = Some (Some d').
Proof.
  unfold otp_get, otp_set.
  destruct (String.eqb_spec e "__proto__") as [->|He];
    destruct (String.eqb_spec e' "__proto__") as [->|He']; simpl.
  - intros H. left. split; [done|congruence].
  - destruct (own s !! e') as [d0|]; [by right|].
    intros H. by apply inherited_no_entry in H.
  - by right.
  - destruct (decide (e = e')) as [<-|Hne].
    + rewrite lookup_insert_eq. intros H. left. split; [done|congruence].
    + rewrite lookup_insert_ne by done.
      destruct (own s !! e') as [d0|]; [by right|].
      intros H. by apply inherited_no_entry in H.
Qed.

(** An entry found after [delete otpStore[e]] was there before. *)
Lemma otp_get_delete_inv e s e' d' :
  otp_get (otp_delete e s) e' = Some (Some d') -> otp_get s e' = Some (Some d').
Proof.
  unfold otp_get, otp_delete. destruct (String.eqb e' "__proto__"); simpl; [done|].
  destruct (decide (e = e')) as [<-|Hne].
  - rewrite lookup_delete_eq. intros H. by apply inherited_no_entry in H.
  - rewrite lookup_delete_ne by done.
    destruct (own s !! e') as [d0|]; [done|].
    intros H. by apply inherited_no_entry in H.
Qed.

(** Reset with the stored code, not later than the expiry time. *)
Lemma reset_password_accepted st e d newPassword now :
  otp_get (otpStore st) e = Some (Some d) -> now <= expires d ->
  reset_password st e (Some (JStr (otp d))) newPassword now
  = (JsonMessage "Password reset successfully",
     set_otpStore (set_users st (update_password (users st) e (bcrypt_hash newPassword)))
                  (otp_delete e (otpStore st))).
Proof.
  intros Hd Hle. unfold reset_password. rewrite Hd. simpl.
  rewrite (proj2 (Z.ltb_ge _ _) Hle). simpl. by rewrite String.eqb_refl.
Qed.

Lemma reset_password_refused st e d submitted newPassword now :
  otp_get (otpStore st) e = Some (Some d) -> now <= expires d ->
  submitted <> Some (JStr (otp d)) ->
  reset_password st e submitted newPassword now = (JsonError 400 "Invalid OTP", st).
Proof.
  intros Hd Hle Hne. unfold reset_password. rewrite Hd. simpl.
  rewrite (proj2 (Z.ltb_ge _ _) Hle).
  destruct (strict_eq_string submitted (otp d)) eqn:E; [|done].
  by apply strict_eq_string_spec in E.
Qed.

(** X16.  The whole reset: the code issued for a user is accepted up to and
    including ten minutes after the request, also when the mail could not be
    sent; the user then has the hash of the new password and the entry is
    removed.  For an address under which [otpStore] inherits nothing the
    code is used up: no further reset passes until a new code is
    requested. *)
Theorem otp_reset_in_time st e u code issued mail_ok newPassword now :
  find_user (users st) e = Some u ->
  now <= issued + 10 * 60 * 1000 ->
  exists resp st1 st2,
    forgot_password st e code issued mail_ok = (resp, st1)
    /\ reset_password st1 e (Some (JStr code)) newPassword now
       = (JsonMessage "Password reset successfully", st2)
    /\ find_user (users st2) e
       = Some {| name := name u; email := email u; password := bcrypt_hash newPassword |}
    /\ own (otpStore st2) !! e = None
    /\ goals st2 = goals st
    /\ (plain_address e = true ->
        forall submitted pw later,
          reset_password st2 e submitted pw later
          = (JsonError 400 "Invalid or expired OTP request", st2)).
Proof.
  intros Hu Hle. unfold forgot_password. rewrite Hu.
  set (d := {| otp := code; expires := issued + 10 * 60 * 1000 |}).
  set (st1 := set_otpStore st (otp_set e d (otpStore st))).
  assert (Hd : otp_get (otpStore st1) e = Some (Some d)) by apply otp_get_set.
  pose proof (reset_password_accepted st1 e d newPassword now Hd Hle) as Hr.
  eexists (if mail_ok then _ else _), st1, _.
  split; [destruct mail_ok; reflexivity|]. split; [exact Hr|].
  simpl. split; [by apply find_user_updated|]. split; [apply lookup_delete_eq|].
  split; [done|]. intros Hplain submitted pw later. unfold reset_password. simpl.
  unfold otp_get. simpl.
  assert (Hp : String.eqb e "__proto__" = false).
  { unfold plain_address in Hplain. destruct (String.eqb e "__proto__"); [done|done]. }
  by rewrite Hp, lookup_delete_eq, inherited_plain.
Qed.

(** The names that every object inherits are none of [__proto__], [otp]
    and [expires]. *)
Lemma object_prototype_names_apart e :
  e ∈ object_prototype_names ->
  String.eqb e "__proto__" = false /\ String.eqb e "otp" = false
  /\ String.eqb e "expires" = false.
Proof.
  intros He.
  assert (Hall : forallb (fun n => negb (String.eqb n "__proto__")
                                   && negb (String.eqb n "otp")
                                   && negb (String.eqb n "expires"))
                   object_prototype_names = true) by reflexivity.
  rewrite forallb_forall in Hall. apply list_elem_of_In, Hall in He.
  apply andb_prop in He as [He H3]. apply andb_prop in He as [H1 H2].
  by rewrite (proj1 (negb_true_iff _) H1), (proj1 (negb_true_iff _) H2),
    (proj1 (negb_true_iff _) H3).
Qed.

(** X26.  [otpStore] is an object, and an address that is the name of a method
    of every object ([toString], [constructor], ...) finds that method in
    it: with no code requested for such an address, a reset that sends no
    [otp] at all passes and rewrites the password of the user with that
    address, while a reset that sends any [otp] is refused. *)
Theorem reset_password_inherited_name st e newPassword now :
  e ∈ object_prototype_names -> own (otpStore st) !! e = None ->
  reset_password st e None newPassword now
  = (JsonMessage "Password reset successfully",
     set_otpStore (set_users st (update_password (users st) e (bcrypt_hash newPassword)))
                  (otp_delete e (otpStore st)))
  /\ (forall u, find_user (users st) e = Some u ->
        find_user (users (reset_password st e None newPassword now).2) e
        = Some {| name := name u; email := email u;
                  password := bcrypt_hash newPassword |})
  /\ (forall v, reset_password st e (Some v) newPassword now
                = (JsonError 400 "Invalid OTP", st)).
Proof.
  intros He Hown.
  destruct (object_prototype_names_apart e He) as (Hp & Ho & Hx).
  assert (Hget : otp_get (otpStore st) e = Some None).
  { unfold otp_get, inherited. rewrite Hp, Hown, Ho, Hx.
    rewrite bool_decide_eq_true_2 by done. by destruct (proto (otpStore st)). }
  assert (Hreset : reset_password st e None newPassword now
                   = (JsonMessage "Password reset successfully",
                      set_otpStore
                        (set_users st (update_password (users st) e (bcrypt_hash newPassword)))
                        (otp_delete e (otpStore st))))
    by (unfold reset_password; by rewrite Hget).
  split; [exact Hreset|]. split.
  - intros u Hu. rewrite Hreset. simpl. by apply find_user_updated.
  - intros v. unfold reset_password. by rewrite Hget.
Qed.

(** X17.  A wrong code (also the right digits sent as a number) is refused with
    400 "Invalid OTP" and nothing changes: the stored code stays and can
    still be used, there is no limit on attempts. *)
Theorem reset_password_wrong_code st e d submitted newPassword now :
  otp_get (otpStore st) e = Some (Some d) -> now <= expires d ->
  submitted <> Some (JStr (otp d)) ->
  reset_password st e submitted newPassword now = (JsonError 400 "Invalid OTP", st)
  /\ exists st',
       reset_password (reset_password st e submitted newPassword now).2 e
         (Some (JStr (otp d))) newPassword now
       = (JsonMessage "Password reset successfully", st').
Proof.
  intros Hd Hle Hne.
  pose proof (reset_password_refused st e d submitted newPassword now Hd Hle Hne) as Hr.
  split; [exact Hr|]. rewrite Hr. simpl. eexists. by apply reset_password_accepted.
Qed.

(** X18.  The last request wins: a second forgot-password for the same address
    replaces the code, the first code is then refused and the second
    accepted. *)
Theorem forgot_password_last_wins st e code1 code2 t1 t2 ok1 ok2 newPassword now :
  is_Some (find_user (users st) e) ->
  code1 <> code2 -> now <= t2 + 10 * 60 * 1000 ->
  let st1 := (forgot_password st e code1 t1 ok1).2 in
  let st2 := (forgot_password st1 e code2 t2 ok2).2 in
  otpStore st2
  = otp_set e {| otp := code2; expires := t2 + 10 * 60 * 1000 |} (otpStore st)
  /\ reset_password st2 e (Some (JStr code1)) newPassword now
     = (JsonError 400 "Invalid OTP", st2)
  /\ exists st3,
       reset_password st2 e (Some (JStr code2)) newPassword now
       = (JsonMessage "Password reset successfully", st3).
Proof.
  intros [u Hu] Hne Hle st1 st2.
  assert (E1 : st1 = set_otpStore st
                 (otp_set e {| otp := code1; expires := t1 + 10 * 60 * 1000 |} (otpStore st))).
  { unfold st1, forgot_password. rewrite Hu. by destruct ok1. }
  assert (E2 : st2 = set_otpStore st1
                 (otp_set e {| otp := code2; expires := t2 + 10 * 60 * 1000 |} (otpStore st1))).
  { unfold st2, forgot_password. rewrite E1 at 1. simpl. rewrite Hu. by destruct ok2. }
  assert (Hd : otp_get (otpStore st2) e
               = Some (Some {| otp := code2; expires := t2 + 10 * 60 * 1000 |}))
    by (rewrite E2; apply otp_get_set).
  split; [|split].
  - rewrite E2, E1. simpl. apply otp_set_twice.
  - apply (reset_password_refused st2 e _ _ newPassword now Hd Hle). simpl. congruence.
  - eexists. apply (reset_password_accepted st2 e _ newPassword now Hd Hle).
Qed.

(** X19.  A successful reset rewrites the password of the first user with the
    address and of nobody else; without such a user it still answers with
    success and the users are as they were. *)
Theorem reset_password_changes_one_user st e d newPassword now :
  otp_get (otpStore st) e = Some (Some d) -> now <= expires d ->
  exists st',
    reset_password st e (Some (JStr (otp d))) newPassword now
    = (JsonMessage "Password reset successfully", st')
    /\ length (users st') = length (users st)
    /\ (find_user (users st) e = None -> users st' = users st)
    /\ (forall u, find_user (users st) e = Some u ->
          exists before after,
            users st = (before ++ u :: after)%list
            /\ Forall (fun v => email v <> e) before
            /\ users st'
               = (before ++ {| name := name u; email := email u;
                               password := bcrypt_hash newPassword |} :: after)%list).
Proof.
  intros Hd Hle. eexists. split; [by apply reset_password_accepted|]. simpl.
  split; [|split].
  - destruct (find_user (users st) e) as [u|] eqn:Hu.
    + destruct (update_password_first _ _ (bcrypt_hash newPassword) _ Hu)
        as (before & after & E & _ & _ & E').
      rewrite E', E. by rewrite !length_app.
    + by rewrite update_password_none.
  - apply update_password_none.
  - intros u Hu.
    destruct (update_password_first _ _ (bcrypt_hash newPassword) _ Hu)
      as (before & after & E & Hb & _ & E').
    by exists before, after.
Qed.

(** X20.  The OTP handlers leave the Goals alone, forgot-password leaves the
    users alone, and a forgot-password for an unknown address changes
    nothing at all. *)
Theorem otp_handlers_keep_goals st e code issued mail_ok submitted newPassword now :
  goals (forgot_password st e code issued mail_ok).2 = goals st
  /\ users (forgot_password st e code issued mail_ok).2 = users st
  /\ goals (reset_password st e submitted newPassword now).2 = goals st
  /\ (find_user (users st) e = None ->
      forgot_password st e code issued mail_ok = (JsonError 404 "User not found", st)).
Proof.
  unfold forgot_password, reset_password. repeat split.
  - destruct (find_user (users st) e); [by destruct mail_ok|done].
  - destruct (find_user (users st) e); [by destruct mail_ok|done].
  - destruct (otp_get (otpStore st) e) as [d|]; [|done].
    destruct (otp_expired d now); [done|].
    by destruct (otp_differs d submitted).
  - by intros ->.
Qed.

(** X21.  Every pending OTP belongs to a user: the handlers keep that true. *)
Theorem otp_for_users_kept st :
  otp_for_users st ->
  (forall e code issued mail_ok, otp_for_users (forgot_password st e code issued mail_ok).2)
  /\ (forall e submitted newPassword now,
        otp_for_users (reset_password st e submitted newPassword now).2)
  /\ (forall uid body today now oids gen,
        otp_for_users (create st uid body today now oids gen).2)
  /\ (forall uid goalId taskId, otp_for_users (toggle_task st uid goalId taskId).2)
  /\ (forall uid goalId, otp_for_users (delete_goal st uid goalId).2)
  /\ (forall uid goalId updates oids,
        otp_for_users (replace_fields st uid goalId updates oids).2).
Proof.
  intros Hinv.
  assert (Hframe : forall st', users st' = users st -> otpStore st' = otpStore st ->
                               otp_for_users st').
  { intros st' Hu Ho e d. rewrite Ho, Hu. apply Hinv. }
  split; [|split; [|split; [|split; [|split]]]].
  - intros e code issued mail_ok. unfold forgot_password.
    destruct (find_user (users st) e) as [u|] eqn:Hu; [|done].
    assert (Hst : otp_for_users
                    (set_otpStore st
                       (otp_set e {| otp := code; expires := issued + 10 * 60 * 1000 |}
                          (otpStore st)))).
    { intros e' d'. simpl. intros Hget.
      apply otp_get_set_inv in Hget as [[-> _]|Hget]; [by rewrite Hu|by eapply Hinv]. }
    by destruct mail_ok.
  - intros e submitted newPassword now. unfold reset_password.
    destruct (otp_get (otpStore st) e) as [d|] eqn:Hd; [|done].
    destruct (otp_expired d now).
    + intros e' d'. simpl. intros Hget. apply otp_get_delete_inv in Hget.
      by eapply Hinv.
    + destruct (otp_differs d submitted); [done|].
      intros e' d'. simpl. intros Hget. apply otp_get_delete_inv in Hget.
      apply find_user_update_is_Some. by eapply Hinv.
  - intros uid body today now oids gen. apply Hframe;
      destruct (create_cases st uid body today now oids gen)
        as [E|(a & r & goal & _ & _ & _ & Hfree & E)]; by rewrite E.
  - intros uid goalId taskId. apply Hframe;
      destruct (toggle_task_cases st uid goalId taskId)
        as [(status & msg & E)|(gid & goal & slots & i & Hl & _ & _ & E)]; by rewrite E.
  - intros uid goalId. apply Hframe;
      destruct (delete_goal_cases st uid goalId)
        as [(status & msg & E)|(gid & goal & Hf & E)]; by rewrite E.
  - intros uid goalId updates oids. apply Hframe;
      destruct (replace_fields_cases st uid goalId updates oids)
        as [(status & msg & E)|(gid & goal & patch & Hf & Hc & E)]; by rewrite E.
Qed.

End OtpExtras.

(** ** More on the generator and on Create followed by a toggle *)

Section GeneratorExtras.
Context `{rt : JSRuntime}.

(** X22.  An answer without any backtick reaches the parser as it is, trimmed. *)
Theorem strip_fences_plain_text text :
  no_backtick text = true -> strip_fences text = trim text.
Proof.
  intros H. unfold strip_fences, replace_fences. by rewrite replace_fences_no_backtick.
Qed.

(** X23.  The generator step fails in three cases only: the call throws, the
    stripped text is not JSON, or it is the JSON [null].  Every other JSON
    value gives a plan, whose roadmap value is truthy and whose message is
    null or truthy. *)
Theorem generate_plan_outcomes gen prompt :
  (generate_plan gen prompt = None
   <-> gen prompt = None
       \/ exists text, gen prompt = Some text
            /\ (JSON_parse (strip_fences text) = None
                \/ JSON_parse (strip_fences text) = Some JNull))
  /\ (forall a r, generate_plan gen prompt = Some (a, r) ->
        truthy r = true /\ (a = JNull \/ truthy a = true)).
Proof.
  assert (Hor : forall x d, js_or x d = d \/ truthy (js_or x d) = true).
  { intros [v|] d; simpl; [|by left]. destruct (truthy v) eqn:E; [by right|by left]. }
  unfold generate_plan. split; [split|].
  - destruct (gen prompt) as [text|]; [|by left]. simpl. intros H. right.
    exists text. split; [done|].
    destruct (JSON_parse (strip_fences text)) as [parsed|]; [|by left]. simpl in H.
    destruct parsed; try done. by right.
  - intros [->|(text & -> & [Hp|Hp])]; [done| |]; simpl; by rewrite Hp.
  - intros a r H.
    destruct (gen prompt) as [text|]; [|done]. simpl in H.
    destruct (JSON_parse (strip_fences text)) as [parsed|]; [|done]. simpl in H.
    destruct (get_prop parsed "roadmap") as [x|]; [|done]. simpl in H.
    destruct (get_prop parsed "adjustmentMessage") as [y|]; [|done]. simpl in H.
    inversion H; subst. split.
    + by destruct (Hor x (JArr [])) as [->|?].
    + destruct (Hor y JNull) as [->|?]; [by left|by right].
Qed.

(** X24.  A truthy [adjustmentMessage] of the answer is stored as the String cast
    makes it: a non-empty string as it is, a number or [true] as its text
    (they are not refused). *)
Theorem create_keeps_adjustment_message st uid body today now oids gen text parsed v doc st' :
  gen (build_prompt today body) = Some text ->
  JSON_parse (strip_fences text) = Some parsed ->
  get_prop parsed "adjustmentMessage" = Some (Some v) ->
  truthy v = true ->
  create st uid body today now oids gen = (JsonGoal doc, st') ->
  castString v = Some (adjustmentMessage doc.2)
  /\ (forall s, v = JStr s -> adjustmentMessage doc.2 = Some s)
  /\ (forall n, v = JNum n -> adjustmentMessage doc.2 = Some (Number_toString n)).
Proof.
  intros Hg Hp Hadj Htruthy Hc.
  destruct (create_goal_inv _ _ _ _ _ _ _ _ _ Hc) as (a & r & goal & Hplan & Hnew & -> & _).
  rewrite (generate_plan_parsed _ _ _ _ Hg Hp), Hadj in Hplan.
  destruct (get_prop parsed "roadmap") as [r0|]; [|done]. simpl in Hplan.
  rewrite Htruthy in Hplan. inversion Hplan; subst a r.
  destruct (new_Goal_inv _ _ _ _ _ _ _ Hnew) as (_ & _ & Ha & _ & _).
  simpl. split; [done|]. split.
  - intros s ->. simpl in Ha. by injection Ha as <-.
  - intros n ->. simpl in Ha. by injection Ha as <-.
Qed.

Lemma roadmap_id_indexed (f : nat -> ObjectId) slots :
  (forall a b, f a = f b -> a = b) ->
  (forall j s, slots !! j = Some s -> s ≫= entry_id = Some (f j)) ->
  forall i, (i < length slots)%nat -> roadmap_id slots (f i) = Some i.
Proof.
  revert f. induction slots as [|s slots IH]; intros f Hinj Hids i Hi; simpl in *; [lia|].
  pose proof (Hids O s eq_refl) as Hs.
  destruct i as [|i].
  - by rewrite bool_decide_eq_true_2.
  - rewrite bool_decide_eq_false_2.
    + rewrite (IH (fun j => f (S j))); [done| | |lia].
      * intros a b Hab. apply Hinj in Hab. lia.
      * intros j s' Hj. by apply (Hids (S j)).
    + rewrite Hs. intros Heq. injection Heq as Heq. apply Hinj in Heq. lia.
Qed.

(** X25.  Every entry of a roadmap that Create stored for a well-formed answer
    can be toggled through the id it was given: when the generated ObjectIds
    are pairwise distinct, the toggle with the id of the [i]-th entry
    completes that entry and no other, whoever calls. *)
Theorem create_then_toggle st uid body today now oids gen text parsed doc st'
    caller goalId taskId i item :
  gen (build_prompt today body) = Some text ->
  JSON_parse (strip_fences text) = Some parsed ->
  well_formed parsed = true ->
  create st uid body today now oids gen = (JsonGoal doc, st') ->
  (forall a b, oids a = oids b -> a = b) ->
  returned_roadmap parsed !! i = Some item ->
  ObjectId_of_string goalId = Some doc.1 ->
  ObjectId_of_string taskId = Some (oids (S i)) ->
  exists goal' st'',
    toggle_task st' caller goalId taskId = (JsonGoal (doc.1, goal'), st'')
    /\ (exists e', entries goal' !! i = Some (Some e') /\ completed e' = Some true)
    /\ (forall j, j <> i -> entries goal' !! j = entries doc.2 !! j).
Proof.
  intros Hg Hp Hwf Hc Hinj Hi Hgid Htid.
  destruct (well_formed_plan _ _ _ _ Hg Hp Hwf) as (a & Hplan & _ & Hitems).
  destruct (create_cases st uid body today now oids gen)
    as [E|(a0 & r0 & goal & Hplan' & Hnew & Hv & _ & E)]; rewrite E in Hc; [done|].
  injection Hc as <- <-.
  rewrite Hplan in Hplan'. inversion Hplan'; subst a0 r0.
  destruct (new_Goal_inv _ _ _ _ _ _ _ Hnew) as (_ & _ & _ & Hr & _). simpl in Hr, Hgid.
  destruct (cast_entries _ (returned_roadmap parsed)) as [slots|] eqn:Hs; [|done].
  simpl in Hr. injection Hr as Hr. symmetry in Hr.
  assert (Hids : forall j s, slots !! j = Some s -> s ≫= entry_id = Some (oids (S j))).
  { intros j s Hj.
    assert (Hlt : (j < length (returned_roadmap parsed))%nat).
    { rewrite <- (cast_entries_length _ _ _ Hs). by eapply lookup_lt_Some. }
    destruct (lookup_lt_is_Some_2 _ _ Hlt) as [item' Hitem'].
    destruct (cast_entries_lookup _ _ _ _ _ Hs Hitem') as (s' & Hs' & Hcast).
    assert (Hexp : expected_entry item' = true).
    { rewrite forallb_forall in Hitems. apply Hitems.
      apply list_elem_of_In. by eapply list_elem_of_lookup_2. }
    destruct (expected_entry_cast _ _ _ Hexp Hcast) as (d & t & _ & _ & ->).
    rewrite Hj in Hs'. by inversion Hs'. }
  assert (Hlen : (i < length slots)%nat).
  { rewrite (cast_entries_length _ _ _ Hs). by eapply lookup_lt_Some. }
  assert (Hfind : roadmap_id slots (oids (S i)) = Some i).
  { apply (roadmap_id_indexed (fun j => oids (S j))); [|done|done].
    intros x y Hxy. apply Hinj in Hxy. lia. }
  destruct (cast_entries_lookup _ _ _ _ _ Hs Hi) as (s & Hsi & Hcast).
  assert (Hexp : expected_entry item = true).
  { rewrite forallb_forall in Hitems. apply Hitems.
    apply list_elem_of_In. by eapply list_elem_of_lookup_2. }
  destruct (expected_entry_cast _ _ _ Hexp Hcast) as (d & t & _ & _ & ->).
  eexists _, _. split.
  - eapply toggle_task_found; [done|apply lookup_insert_eq|exact Hr|done|done|done].
  - unfold entries. simpl. rewrite Hr. simpl. split.
    + eexists. split; [by rewrite list_lookup_alter_eq, Hsi|done].
    + intros j Hj. by apply list_lookup_alter_ne.
Qed.

End GeneratorExtras.

(** ** The further properties on the sample requests *)

Section ExtraRuns.
Import Sample.
Local Existing Instance Reference.runtime.

Lemma oids_distinct a b : oids a = oids b -> a = b.
Proof. unfold oids. intros H. apply Nat2N.inj in H. lia. Qed.

Lemma second_task_hex_id : ObjectId_of_string second_task_hex = Some 3843%N.
Proof. vm_compute. reflexivity. Qed.

Lemma alice_found : find_user (users empty) "alice@example.org" = Some alice_user.
Proof. vm_compute. reflexivity. Qed.

Lemma pending_lookup :
  otp_get (otpStore pending) "alice@example.org"
  = Some (Some {| otp := "483920"; expires := now + 600000 |}).
Proof. vm_compute. reflexivity. Qed.

Lemma delete_goal_removes_own_run :
  delete_goal with_goal alice goal_hex = (JsonMessage "Goal deleted successfully", empty)
  /\ delete_goal empty alice goal_hex
     = (JsonError 404 "Goal not found or unauthorized", empty).
Proof.
  destruct (delete_goal_removes_own with_goal alice goal_hex 3841%N alice_goal
              goal_hex_id with_goal_lookup eq_refl)
    as (st' & Hd & _ & _ & _ & _ & Hagain).
  assert (Hst : st' = empty).
  { assert (E : delete_goal with_goal alice goal_hex
                = (JsonMessage "Goal deleted successfully", empty))
      by (vm_compute; reflexivity).
    rewrite E in Hd. by injection Hd as <-. }
  rewrite Hst in Hd, Hagain. by split.
Defined.

Lemma create_adds_one_owned_goal_run :
  userId alice_goal = Some alice
  /\ goals empty !! 3841%N = None
  /\ size (goals with_goal) = 1%nat.
Proof.
  destruct (create_adds_one_owned_goal empty alice body today now oids
              (fun _ => Some two_days_text) _ _ create_two_days)
    as (Hu & _ & _ & Hfree & _ & Hsize & _).
  split; [exact Hu|]. split; [exact Hfree|exact Hsize].
Defined.

Lemma create_requires_title_run :
  create empty alice untitled today now oids (fun _ => Some two_days_text)
  = (GenerationFailure, empty).
Proof.
  apply (create_requires_title empty alice untitled today now oids
           (fun _ => Some two_days_text)).
  intros t H. discriminate H.
Defined.

Lemma create_roadmap_in_order_run :
  entries alice_goal !! 1%nat = Some (Some (pending_entry 3843%N 2 "Two chords")).
Proof.
  destruct (create_roadmap_in_order empty alice body today now oids
              (fun _ => Some two_days_text) two_days_text two_days _ _
              eq_refl parse_two_days eq_refl create_two_days 1%nat
              (JObj [("day", JNum 2); ("task", JStr "Two chords")]) eq_refl)
    as (d & t & Hd & Ht & He).
  simpl in Hd, Ht. injection Hd as <-. injection Ht as <-. exact He.
Defined.

Lemma create_then_list_run :
  returns_goal (list_goals with_goal alice).1 3841%N
  /\ goals with_goal !! 3841%N = Some alice_goal.
Proof.
  apply (create_then_list empty alice body today now oids
           (fun _ => Some two_days_text) _ _ create_two_days alice 3841%N alice_goal).
  left. by repeat split.
Defined.

Lemma create_then_delete_run :
  delete_goal with_goal alice goal_hex = (JsonMessage "Goal deleted successfully", empty).
Proof.
  exact (create_then_delete empty alice body today now oids
           (fun _ => Some two_days_text) _ _ goal_hex create_two_days goal_hex_id).
Defined.

Lemma toggle_task_frame_run :
  exists goal' st',
    toggle_task with_goal alice goal_hex task_hex = (JsonGoal (3841%N, goal'), st')
    /\ entries goal' !! O
       = Some (Some {| entry_id := Some 3842%N; day := Some 1;
                       task := Some "Hold the guitar"; completed := Some true |})
    /\ entries goal' !! 1%nat = Some (Some second_day)
    /\ title goal' = Some "Learn guitar".
Proof.
  destruct (toggle_task_frame with_goal alice goal_hex task_hex 3841%N 3842%N
              alice_goal _ O first_day goal_hex_id with_goal_lookup eq_refl eq_refl
              task_hex_id eq_refl eq_refl)
    as (goal' & st' & Hr & _ & _ & _ & _ & Hsame & _ & Hother & Hentry).
  exists goal', st'. split; [exact Hr|]. split; [exact Hentry|].
  split; [by rewrite Hother|].
  exact (f_equal title Hsame).
Defined.

Lemma with_blank_goal_lookup : goals with_blank_goal !! 3841%N = Some blank_goal.
Proof. vm_compute. reflexivity. Qed.

Lemma with_bare_goal_lookup : goals with_bare_goal !! 3841%N = Some bare_goal.
Proof. vm_compute. reflexivity. Qed.

(** The two states come from Alice's goal through [PUT /api/goals/:id]:
    the body [{ roadmap: null }] is cast and stored, and so is a roadmap
    with an element [null] and an element [[]]. *)
Lemma replace_fields_null_roadmap :
  replace_fields with_goal alice goal_hex null_roadmap oids
  = (JsonGoal (3841%N, bare_goal), with_bare_goal)
  /\ response_roadmap
       (replace_fields with_goal alice goal_hex
          (roadmap_update (JArr [JNull; JArr []])) oids).1
     = [None; Some {| entry_id := Some 3842%N; day := None; task := None;
                      completed := Some false |}].
Proof. split; vm_compute; reflexivity. Qed.

Lemma toggle_task_not_found_run :
  toggle_task empty alice goal_hex task_hex = (JsonError 404 "Goal not found", empty)
  /\ toggle_task with_goal alice goal_hex unknown_hex
     = (JsonError 404 "Task not found", with_goal)
  /\ toggle_task with_bare_goal alice goal_hex task_hex
     = (JsonError 500 "Failed to update task", with_bare_goal)
  /\ toggle_task with_blank_goal alice goal_hex task_hex
     = (JsonError 500 "Failed to update task", with_blank_goal).
Proof.
  split; [|split; [|split]].
  - apply (proj1 (toggle_task_not_found empty alice goal_hex task_hex 3841%N goal_hex_id)).
    reflexivity.
  - apply (proj1 (proj2 (toggle_task_not_found with_goal alice goal_hex unknown_hex 3841%N
                           goal_hex_id)) alice_goal _ with_goal_lookup eq_refl).
    intros tid e Htid He.
    assert (Hid : tid = 4095%N) by (vm_compute in Htid; by injection Htid as <-).
    subst tid. rewrite !elem_of_cons, elem_of_nil in He.
    destruct He as [He|[He|[]]]; injection He as ->; discriminate.
  - apply (proj1 (proj2 (proj2 (toggle_task_not_found with_bare_goal alice goal_hex
                                  task_hex 3841%N goal_hex_id)))
             bare_goal with_bare_goal_lookup eq_refl).
  - apply (proj2 (proj2 (proj2 (toggle_task_not_found with_blank_goal alice goal_hex
                                  task_hex 3841%N goal_hex_id)))
             blank_goal _ 3842%N O with_blank_goal_lookup eq_refl task_hex_id
             eq_refl eq_refl).
Defined.

Lemma replace_fields_roadmap_only_run :
  replace_fields with_goal alice goal_hex skip_day oids
  = (JsonGoal (3841%N,
               set_roadmap_of alice_goal [Some (pending_entry 3841%N 2 "Two chords")]),
     set_goals with_goal
       (<[3841%N := set_roadmap_of alice_goal
                      [Some (pending_entry 3841%N 2 "Two chords")]]>
          (goals with_goal))).
Proof.
  apply (replace_fields_roadmap_only with_goal alice goal_hex 3841%N alice_goal
           [JObj [("day", JNum 2); ("task", JStr "Two chords")]] oids
           [Some (pending_entry 3841%N 2 "Two chords")]
           goal_hex_id with_goal_lookup eq_refl eq_refl).
Defined.

Lemma replace_fields_no_updates_run :
  replace_fields with_goal alice goal_hex no_updates oids
  = (JsonGoal (3841%N, alice_goal), with_goal).
Proof.
  exact (replace_fields_no_updates with_goal alice goal_hex 3841%N alice_goal oids
           goal_hex_id with_goal_lookup eq_refl).
Defined.

Lemma replace_fields_hands_over_run :
  exists goal' st',
    replace_fields with_goal alice goal_hex give_to_bob oids = (JsonGoal (3841%N, goal'), st')
    /\ userId goal' = Some bob
    /\ delete_goal st' alice goal_hex
       = (JsonError 404 "Goal not found or unauthorized", st').
Proof.
  destruct (replace_fields_hands_over with_goal alice goal_hex 3841%N alice_goal
              give_to_bob oids (JStr bob_hex) (Some bob)
              goal_hex_id with_goal_lookup eq_refl)
    as (goal' & st' & Hr & _ & Hu & _ & Hd & _).
  - vm_compute. eauto.
  - reflexivity.
  - vm_compute. reflexivity.
  - discriminate.
  - by exists goal', st'.
Defined.

Lemma otp_reset_in_time_run :
  exists st2,
    reset_password pending "alice@example.org" (Some (JStr "483920")) "new secret"
      (now + 600000)
    = (JsonMessage "Password reset successfully", st2)
    /\ find_user (users st2) "alice@example.org"
       = Some {| name := "Alice"; email := "alice@example.org";
                 password := Reference.hash "new secret" |}
    /\ own (otpStore st2) !! "alice@example.org" = None
    /\ reset_password st2 "alice@example.org" (Some (JStr "483920")) "again" (now + 600000)
       = (JsonError 400 "Invalid or expired OTP request", st2).
Proof.
  destruct (otp_reset_in_time empty "alice@example.org" alice_user "483920" now true
              "new secret" (now + 600000) alice_found)
    as (resp & st1 & st2 & Hf & Hr & Hu & Ho & _ & Hused).
  - vm_compute. discriminate.
  - assert (Hst : st1 = pending).
    { assert (E : forgot_password empty "alice@example.org" "483920" now true
                  = (JsonMessage "OTP sent to your email", pending))
        by (vm_compute; reflexivity).
      rewrite E in Hf. by injection Hf as _ <-. }
    subst st1. exists st2. split; [exact Hr|]. split; [exact Hu|].
    split; [exact Ho|]. apply Hused. reflexivity.
Defined.

Lemma method_user_found : find_user (users with_method_user) "toString" = Some method_user.
Proof. vm_compute. reflexivity. Qed.

(** No code was ever requested for the address [toString]; a reset without
    [otp] gives its user a new password. *)
Lemma reset_password_inherited_name_run :
  otp_get (otpStore with_method_user) "toString" = Some None
  /\ (exists st',
        reset_password with_method_user "toString" None "new secret" now
        = (JsonMessage "Password reset successfully", st')
        /\ find_user (users st') "toString"
           = Some {| name := "Mallory"; email := "toString";
                     password := Reference.hash "new secret" |})
  /\ reset_password with_method_user "toString" (Some (JStr "483920")) "new secret" now
     = (JsonError 400 "Invalid OTP", with_method_user).
Proof.
  destruct (reset_password_inherited_name with_method_user "toString" "new secret" now)
    as (Hr & Hu & Hrefused).
  - apply list_elem_of_In. simpl. do 8 right. left. reflexivity.
  - reflexivity.
  - split; [reflexivity|]. split.
    + eexists. split; [exact Hr|]. pose proof (Hu _ method_user_found) as H.
      rewrite Hr in H. exact H.
    + apply Hrefused.
Defined.

Lemma reset_password_wrong_code_run :
  reset_password pending "alice@example.org" (Some (JNum 483920)) "new secret" (now + 5)
  = (JsonError 400 "Invalid OTP", pending).
Proof.
  apply (fun Hle Hne => proj1 (reset_password_wrong_code pending "alice@example.org" _
           (Some (JNum 483920)) "new secret" (now + 5) pending_lookup Hle Hne)).
  - vm_compute. discriminate.
  - discriminate.
Defined.

Lemma forgot_password_last_wins_run :
  let st2 := (forgot_password pending "alice@example.org" "771204" (now + 1000) true).2 in
  reset_password st2 "alice@example.org" (Some (JStr "483920")) "new secret" (now + 2000)
  = (JsonError 400 "Invalid OTP", st2)
  /\ exists st3,
       reset_password st2 "alice@example.org" (Some (JStr "771204")) "new secret"
         (now + 2000)
       = (JsonMessage "Password reset successfully", st3).
Proof.
  destruct (forgot_password_last_wins empty "alice@example.org" "483920" "771204"
              now (now + 1000) true true "new secret" (now + 2000))
    as (_ & Hfirst & Hsecond).
  - rewrite alice_found. eauto.
  - discriminate.
  - vm_compute. discriminate.
  - split; [exact Hfirst|exact Hsecond].
Defined.

Lemma reset_password_changes_one_user_run :
  exists st',
    reset_password pending "alice@example.org" (Some (JStr "483920")) "new secret" (now + 5)
    = (JsonMessage "Password reset successfully", st')
    /\ users st' = [ {| name := "Alice"; email := "alice@example.org";
                        password := Reference.hash "new secret" |} ].
Proof.
  destruct (reset_password_changes_one_user pending "alice@example.org" _ "new secret"
              (now + 5) pending_lookup)
    as (st' & Hr & _ & _ & Hone).
  - vm_compute. discriminate.
  - exists st'. split; [exact Hr|].
    destruct (Hone alice_user alice_found) as (before & after & E & _ & ->).
    change (users pending) with [alice_user] in E.
    destruct before as [|x [|y before]]; simpl in E; [|by destruct after|done].
    injection E as <-. reflexivity.
Defined.

Lemma otp_handlers_keep_goals_run :
  forgot_password with_goal "nobody@example.org" "483920" now true
  = (JsonError 404 "User not found", with_goal).
Proof.
  destruct (otp_handlers_keep_goals with_goal "nobody@example.org" "483920" now true
              None "" now) as (_ & _ & _ & Hunknown).
  apply Hunknown. vm_compute. reflexivity.
Defined.

Lemma pending_has_user : otp_for_users pending.
Proof.
  intros e d Hget. unfold pending in Hget. simpl in Hget.
  apply otp_get_set_inv in Hget as [[-> _]|Hget].
  - exists alice_user. vm_compute. reflexivity.
  - unfold otp_get in Hget. simpl in Hget.
    destruct (String.eqb e "__proto__"); [done|].
    rewrite lookup_empty in Hget. by apply inherited_no_entry in Hget.
Qed.

Lemma otp_for_users_kept_run :
  otp_for_users pending
  /\ otp_for_users
       (reset_password pending "alice@example.org" (Some (JStr "483920")) "new secret"
          (now + 5)).2
  /\ otp_for_users (forgot_password pending "alice@example.org" "771204" now false).2.
Proof.
  destruct (otp_for_users_kept pending pending_has_user) as (Hforgot & Hreset & _).
  split; [exact pending_has_user|]. split; [apply Hreset|apply Hforgot].
Defined.

Lemma strip_fences_plain_text_run : strip_fences "  {}  " = "{}".
Proof. exact (strip_fences_plain_text "  {}  " eq_refl). Defined.

Lemma generate_plan_outcomes_run :
  generate_plan (fun _ => None) "prompt" = None
  /\ generate_plan (fun _ => Some "null") "prompt" = None
  /\ exists a r, generate_plan (fun _ => Some number_text) "prompt" = Some (a, r)
       /\ truthy r = true /\ a = JNull.
Proof.
  split; [|split].
  - apply (proj1 (generate_plan_outcomes (fun _ => None) "prompt")). by left.
  - apply (proj1 (generate_plan_outcomes (fun _ => Some "null") "prompt")).
    right. exists "null". split; [reflexivity|right; vm_compute; reflexivity].
  - exists JNull, (JArr []).
    assert (E : generate_plan (fun _ => Some number_text) "prompt" = Some (JNull, JArr []))
      by (vm_compute; reflexivity).
    split; [exact E|].
    destruct (generate_plan_outcomes (fun _ => Some number_text) "prompt") as [_ Hplan].
    destruct (Hplan _ _ E) as [Hr _]. by split.
Defined.

Lemma create_keeps_adjustment_message_run :
  exists doc st',
    create empty alice body today now oids
      (fun _ => Some (falsy_text (quoted "Ten years is long")))
    = (JsonGoal doc, st')
    /\ adjustmentMessage doc.2 = Some "Ten years is long"
    /\ exists doc5 st5,
         create empty alice body today now oids (fun _ => Some (falsy_text "5"))
         = (JsonGoal doc5, st5)
         /\ adjustmentMessage doc5.2 = Some "5".
Proof.
  assert (Hc : create empty alice body today now oids
                 (fun _ => Some (falsy_text (quoted "Ten years is long")))
               = (JsonGoal (3841%N, created (Some "Ten years is long") [Some first_day]),
                  set_goals empty
                    (<[3841%N := created (Some "Ten years is long") [Some first_day]]> ∅)))
    by (vm_compute; reflexivity).
  assert (Hc5 : create empty alice body today now oids (fun _ => Some (falsy_text "5"))
                = (JsonGoal (3841%N, created (Some "5") [Some first_day]),
                   set_goals empty (<[3841%N := created (Some "5") [Some first_day]]> ∅)))
    by (vm_compute; reflexivity).
  eexists _, _. split; [exact Hc|]. split.
  - refine (proj1 (proj2 (create_keeps_adjustment_message empty alice body today now oids
              (fun _ => Some (falsy_text (quoted "Ten years is long"))) _
              (JObj [("adjustmentMessage", JStr "Ten years is long");
                     ("roadmap", JArr [JObj [("day", JNum 1);
                                             ("task", JStr "Hold the guitar")]])])
              (JStr "Ten years is long") _ _ eq_refl _ eq_refl eq_refl Hc)) _ eq_refl).
    vm_compute. reflexivity.
  - eexists _, _. split; [exact Hc5|].
    refine (proj2 (proj2 (create_keeps_adjustment_message empty alice body today now oids
              (fun _ => Some (falsy_text "5")) _
              (JObj [("adjustmentMessage", JNum 5);
                     ("roadmap", JArr [JObj [("day", JNum 1);
                                             ("task", JStr "Hold the guitar")]])])
              (JNum 5) _ _ eq_refl _ eq_refl eq_refl Hc5)) 5 eq_refl).
    vm_compute. reflexivity.
Defined.

Lemma create_then_toggle_run :
  exists goal' st'',
    toggle_task with_goal bob goal_hex second_task_hex = (JsonGoal (3841%N, goal'), st'')
    /\ (exists e', entries goal' !! 1%nat = Some (Some e') /\ completed e' = Some true)
    /\ entries goal' !! O = Some (Some first_day).
Proof.
  destruct (create_then_toggle empty alice body today now oids
              (fun _ => Some two_days_text) two_days_text two_days _ _
              bob goal_hex second_task_hex 1%nat
              (JObj [("day", JNum 2); ("task", JStr "Two chords")])
              eq_refl parse_two_days eq_refl create_two_days oids_distinct eq_refl
              goal_hex_id second_task_hex_id)
    as (goal' & st'' & Hr & Hdone & Hothers).
  exists goal', st''. split; [exact Hr|]. split; [exact Hdone|].
  by rewrite (Hothers O).
Defined.

End ExtraRuns.
